(** * torch.fx.immutable_collections: immutable containers and their pytree adapter

    A shallow embedding of [torch/fx/immutable_collections.py].  The Python
    values the module manipulates are a small inductive universe; the class
    factory builds a method namespace (a finite map from method names to
    functions); `==`, `hash`, `tuple(...)` and the container constructors are
    the host language's and are written out here as far as the module relies
    on them. *)

From Stdlib Require Import ZArith List Bool Lia.
From Stdlib Require Import Strings.String Strings.Ascii.
From stdpp Require Import gmap strings.

Import ListNotations.
Set Warnings "-register-all".
Local Open Scope string_scope.
Local Open Scope list_scope.
Local Open Scope Z_scope.

(** ** Python values *)

(** The types an object of the universe can have.  [T_immutable_list] and
    [T_immutable_dict] are the two classes the module creates. *)
Inductive type_tag :=
| T_int | T_str | T_type | T_tuple | T_list | T_dict
| T_immutable_list | T_immutable_dict.

Definition type_tag_eqb (s t : type_tag) : bool :=
  match s, t with
  | T_int, T_int | T_str, T_str | T_type, T_type | T_tuple, T_tuple
  | T_list, T_list | T_dict, T_dict
  | T_immutable_list, T_immutable_list
  | T_immutable_dict, T_immutable_dict => true
  | _, _ => false
  end.

(** A mapping keeps its items in insertion order, so its state is the ordered
    list of (key, value) items. *)
Inductive value :=
| VInt (n : Z)
| VStr (s : string)
| VType (t : type_tag)
| VTuple (xs : list value)
| VList (xs : list value)
| VDict (items : list (value * value))
| VImmList (xs : list value)
| VImmDict (items : list (value * value)).

Definition type_of (v : value) : type_tag :=
  match v with
  | VInt _ => T_int
  | VStr _ => T_str
  | VType _ => T_type
  | VTuple _ => T_tuple
  | VList _ => T_list
  | VDict _ => T_dict
  | VImmList _ => T_immutable_list
  | VImmDict _ => T_immutable_dict
  end.

(** Exceptions and outcomes of a call. *)
Inductive exn :=
| NotImplementedError (msg : string)
| TypeError
| ValueError
| AttributeError.

Inductive outcome (A : Type) :=
| Ok (a : A)
| Raise (e : exn).
Arguments Ok {A} a.
Arguments Raise {A} e.

(** An exception raised by a step propagates through the rest of the
    computation ([x ← c; k] runs [k] only when [c] returned). *)
#[global] Instance outcome_bind : MBind outcome := fun A B k o =>
  match o with
  | Ok a => k a
  | Raise e => Raise e
  end.

(** ** Hashing ([hash]) *)

(** [int.__hash__]: reduction modulo the Mersenne prime 2^61 - 1, keeping the
    sign; -1 is reserved for errors and replaced by -2. *)
Definition PyHASH_MODULUS : Z := 2 ^ 61 - 1.

Definition long_hash (n : Z) : Z :=
  let x := Z.sgn n * (Z.abs n mod PyHASH_MODULUS) in
  if x =? -1 then -2 else x.

(** [tuple.__hash__] of a 64-bit build: the accumulator is an unsigned
    64-bit word, an item that cannot be hashed makes the whole call fail. *)
Definition uhash_wrap (x : Z) : Z := x mod 2 ^ 64.
Definition hash_of_uhash (u : Z) : Z := if u <? 2 ^ 63 then u else u - 2 ^ 64.

Definition PyHASH_XXPRIME_1 : Z := 11400714785074694791.
Definition PyHASH_XXPRIME_2 : Z := 14029467366897019727.
Definition PyHASH_XXPRIME_5 : Z := 2870177450012600261.

Definition PyHASH_XXROTATE (x : Z) : Z :=
  uhash_wrap (Z.lor (Z.shiftl x 31) (Z.shiftr x 33)).

Definition tuplehash_lane (acc lane : Z) : Z :=
  let acc := uhash_wrap (acc + uhash_wrap lane * PyHASH_XXPRIME_2) in
  let acc := PyHASH_XXROTATE acc in
  uhash_wrap (acc * PyHASH_XXPRIME_1).

Fixpoint tuplehash_loop (acc : Z) (lanes : list (option Z)) : option Z :=
  match lanes with
  | [] => Some acc
  | None :: _ => None
  | Some lane :: rest => tuplehash_loop (tuplehash_lane acc lane) rest
  end.

Definition tuplehash (lanes : list (option Z)) : option Z :=
  match tuplehash_loop PyHASH_XXPRIME_5 lanes with
  | None => None
  | Some acc =>
      let acc :=
        uhash_wrap (acc + Z.lxor (Z.of_nat (length lanes))
                                 (Z.lxor PyHASH_XXPRIME_5 3527539)) in
      Some (if acc =? 2 ^ 64 - 1 then 1546275796 else hash_of_uhash acc)
  end.

(** Whether [hash] accepts the value: plain lists and dicts are unhashable,
    a tuple or an immutable container is hashable when everything it holds
    is. *)
Fixpoint hashable (v : value) : bool :=
  match v with
  | VInt _ | VStr _ | VType _ => true
  | VList _ | VDict _ => false
  | VTuple xs | VImmList xs => forallb hashable xs
  | VImmDict kvs =>
      forallb (fun kv => match kv with (k, v) => hashable k && hashable v end) kvs
  end.

Section Hash.
(** The hash of a string is keyed per process and the hash of a type
    object comes from its address: both are left to the runtime. *)
Variable str_hash : string -> Z.
Variable type_hash : type_tag -> Z.

(** [hash(v)], [None] standing for the [TypeError] of an unhashable value.
    The two immutable classes hash through their [__hash__] entries
    (lines 65 and 85 of the module): [hash(tuple(self))] and
    [hash(tuple(self.items()))]. *)
Fixpoint py_hash (v : value) : option Z :=
  match v with
  | VInt n => Some (long_hash n)
  | VStr s => Some (str_hash s)
  | VType t => Some (type_hash t)
  | VList _ | VDict _ => None
  | VTuple xs => tuplehash (map py_hash xs)
  | VImmList xs => tuplehash (map py_hash xs)
  | VImmDict kvs =>
      tuplehash
        (map (fun kv =>
                match kv with
                | (k, v) => tuplehash [py_hash k; py_hash v]
                end) kvs)
  end.
End Hash.

(** ** Iteration, truth *)

(** The items of [iter(v)]: the elements of a sequence, the keys of a mapping,
    the characters of a string; a number or a type object is not iterable.
    This is the iteration of the built-in kinds, which the two classes of
    the module inherit: their namespaces bind no [__iter__]. *)
Definition py_iter (v : value) : outcome (list value) :=
  match v with
  | VInt _ | VType _ => Raise TypeError
  | VStr s => Ok (map (fun c => VStr (String c EmptyString)) (list_ascii_of_string s))
  | VTuple xs | VList xs | VImmList xs => Ok xs
  | VDict kvs | VImmDict kvs => Ok (map fst kvs)
  end.

(** [tuple(v)]. *)
Definition py_tuple (v : value) : outcome value :=
  xs ← py_iter v; Ok (VTuple xs).

(** The 2-tuple of an item. *)
Definition pair_tuple (kv : value * value) : value :=
  match kv with (k, v) => VTuple [k; v] end.

(** What iterating the view [v.items()] yields: the (key, value) 2-tuples in
    insertion order.  [items] is the method of the built-in dict, which
    immutable_dict inherits. *)
Definition py_items (v : value) : outcome (list value) :=
  match v with
  | VDict kvs | VImmDict kvs => Ok (map pair_tuple kvs)
  | _ => Raise AttributeError
  end.

(** [bool(v)]: zero and the empty containers are false. *)
Definition truth (v : value) : bool :=
  match v with
  | VInt n => negb (n =? 0)
  | VStr s => negb (String.eqb s "")
  | VType _ => true
  | VTuple xs | VList xs | VImmList xs => negb (Nat.eqb (length xs) 0)
  | VDict kvs | VImmDict kvs => negb (Nat.eqb (length kvs) 0)
  end.

(** ** The class factory *)

(** The two base kinds handed to the factory, with their [__name__]. *)
Inductive base_kind := base_list | base_dict.

Definition base_name (b : base_kind) : string :=
  match b with
  | base_list => "list"
  | base_dict => "dict"
  end.

(** [type(self).__name__]; a class made by the factory is named
    ["immutable_" + base.__name__]. *)
Definition type_name (t : type_tag) : string :=
  match t with
  | T_int => "int"
  | T_str => "str"
  | T_type => "type"
  | T_tuple => "tuple"
  | T_list => base_name base_list
  | T_dict => base_name base_dict
  | T_immutable_list => "immutable_" ++ base_name base_list
  | T_immutable_dict => "immutable_" ++ base_name base_dict
  end.

(** A method takes [self], the positional and the keyword arguments, and
    gives the outcome of the call together with the state [self] is left
    in. *)
Definition method : Type :=
  value -> list value -> list (string * value) -> outcome value * value.

Record py_class := {
  cls_name : string;
  cls_base : base_kind;
  cls_namespace : gmap string method
}.

(** An attribute that is not a function: calling it fails. *)
Definition attribute_not_callable : method := fun self args kwargs =>
  (Raise TypeError, self).

(** The attributes every class made by [type(name, bases, namespace)] over a
    list or dict base gets besides its namespace, unless the namespace binds
    the name itself; none of them can be called. *)
Definition implicit_attributes : list string :=
  [ "__module__"; "__dict__"; "__weakref__"; "__doc__" ].

Definition add_if_absent (name : string) (f : method)
    (namespace : gmap string method) : gmap string method :=
  match namespace !! name with
  | Some _ => namespace
  | None => <[name := f]> namespace
  end.

(** [type(name, (base,), namespace)] for a namespace of plain functions under
    names the class machinery gives no meaning of its own (it rewraps
    [__new__], [__init_subclass__] and [__class_getitem__] and reads
    [__slots__], [__qualname__] and [__classcell__] itself).  The implicit
    attributes are added, and a class that binds [__eq__] without
    [__hash__] gets [__hash__] set to None. *)
Definition type_new (name : string) (base : base_kind)
    (namespace : gmap string method) : py_class :=
  let namespace :=
    foldr (fun a ns => add_if_absent a attribute_not_callable ns)
          namespace implicit_attributes in
  let namespace :=
    match namespace !! "__eq__", namespace !! "__hash__" with
    | Some _, None => <["__hash__" := attribute_not_callable]> namespace
    | _, _ => namespace
    end in
  {| cls_name := name; cls_base := base; cls_namespace := namespace |}.

Definition _help_mutation : string :=
"If you are attempting to modify the kwargs or args of a torch.fx.Node object,
instead create a new copy of it and assign the copy to the node:
    new_args = ... # copy and mutate args
    node.args = new_args
".

Definition no_mutation_message (self : value) : string :=
  ("'" ++ type_name (type_of self) ++ "' object does not support mutation. "
   ++ _help_mutation)%string.

(** A keyword argument named self. *)
Definition has_self_keyword (kwargs : list (string * value)) : bool :=
  existsb (fun kw => String.eqb (fst kw) "self") kwargs.

(** The function takes [self], any positional and any keyword arguments;
    called as a method, [self] is bound already, so a keyword argument named
    self cannot be bound and the call fails before the body runs. *)
Definition _no_mutation : method := fun self args kwargs =>
  if has_self_keyword kwargs then (Raise TypeError, self)
  else (Raise (NotImplementedError (no_mutation_message self)), self).

(** [namespace.update(pairs)]. *)
Definition namespace_update (namespace : gmap string method)
    (pairs : list (string * method)) : gmap string method :=
  foldl (fun ns p => <[fst p := snd p]> ns) namespace pairs.

Definition _create_immutable_container_class (base : base_kind)
    (mutable_functions : list string)
    (namespace : option (gmap string method)) : py_class :=
  let namespace := default ∅ namespace in
  let namespace :=
    namespace_update namespace
      (map (fun method => (method, _no_mutation)) mutable_functions) in
  let container_class :=
    type_new ("immutable_" ++ base_name base) base namespace in
  container_class.

(** Modelled from the spec: the decorator [compatibility] of
    [torch.fx._compatibility], which is not part of the sources at hand.  The
    spec describes the two exposed classes as what the factory produces, so
    the decorator is taken to hand back the class it is given. *)
Definition compatibility (is_backward_compatible : bool) (c : py_class) : py_class := c.

Definition immutable_list_mutable_functions : list string :=
  [ "__delitem__"; "__iadd__"; "__imul__"; "__setitem__"; "append"; "clear";
    "extend"; "insert"; "pop"; "remove"; "reverse"; "sort" ].

Definition immutable_dict_mutable_functions : list string :=
  [ "__delitem__"; "__ior__"; "__setitem__"; "clear"; "pop"; "popitem";
    "setdefault"; "update" ].

(** ** Comparisons and tables of the built-in kinds

    The comparison of the elements is a parameter here; [py_eq] below closes
    the recursion. *)

(** Items compared pair by pair up to the first difference; when one side
    ends, the sequences are equal if the other ends too. *)
Definition seq_eq (eq : value -> value -> outcome bool)
  : list value -> list value -> outcome bool :=
  fix go xs ys :=
    match xs, ys with
    | [], [] => Ok true
    | x :: xs', y :: ys' =>
        match eq x y with
        | Raise e => Raise e
        | Ok true => go xs' ys'
        | Ok false => Ok false
        end
    | _, _ => Ok false
    end.

(** Whether a stored key is the key looked for: the hashes are compared
    first, and only keys of the same hash are compared with [==]. *)
Definition key_matches (hash : value -> option Z)
    (eq_key : value -> outcome bool) (h : option Z) (stored : value)
  : outcome bool :=
  match h, hash stored with
  | Some hk, Some hs => if hk =? hs then eq_key stored else Ok false
  | _, _ => Raise TypeError
  end.

(** The value stored under the first key that matches. *)
Definition assoc_lookup (matches : value -> outcome bool)
  : list (value * value) -> outcome (option value) :=
  fix go m :=
    match m with
    | [] => Ok None
    | (k', v') :: m' =>
        match matches k' with
        | Raise e => Raise e
        | Ok true => Ok (Some v')
        | Ok false => go m'
        end
    end.

(** Every item passes the check, tried in order up to the first failure. *)
Definition items_all (check : value -> value -> outcome bool)
  : list (value * value) -> outcome bool :=
  fix go items :=
    match items with
    | [] => Ok true
    | (k, v) :: rest =>
        match check k v with
        | Raise e => Raise e
        | Ok true => go rest
        | Ok false => Ok false
        end
    end.

(** The comparison the built-in types implement.  [list.__eq__] and
    [dict.__eq__] accept an instance of a subclass on either side.  Lists of
    different lengths are unequal without looking at the items; two mappings
    are equal when they have the same number of items and every item of the
    left one is found, under its hash and [==], with an equal value in the
    right one. *)
Definition builtin_eq (hash : value -> option Z)
    (eq : value -> value -> outcome bool) (a b : value) : outcome bool :=
  match a with
  | VInt x => match b with VInt y => Ok (Z.eqb x y) | _ => Ok false end
  | VStr s => match b with VStr t => Ok (String.eqb s t) | _ => Ok false end
  | VType s => match b with VType t => Ok (type_tag_eqb s t) | _ => Ok false end
  | VTuple xs => match b with VTuple ys => seq_eq eq xs ys | _ => Ok false end
  | VList xs | VImmList xs =>
      match b with
      | VList ys | VImmList ys =>
          if Nat.eqb (length xs) (length ys) then seq_eq eq xs ys else Ok false
      | _ => Ok false
      end
  | VDict kvs | VImmDict kvs =>
      match b with
      | VDict m | VImmDict m =>
          if Nat.eqb (length kvs) (length m) then
            items_all
              (fun k v =>
                 match assoc_lookup (key_matches hash (eq k) (hash k)) m with
                 | Raise e => Raise e
                 | Ok None => Ok false
                 | Ok (Some v') => eq v v'
                 end) kvs
          else Ok false
      | _ => Ok false
      end
  end.

Section Classes.
Variable str_hash : string -> Z.
Variable type_hash : type_tag -> Z.
(** What the built-in base kinds do for a method name is the host
    language's; the factory only decides which names reach it. *)
Variable base_method : base_kind -> string -> option method.

(** The built-in [hash(v)] as a call. *)
Definition builtin_hash (v : value) : outcome value :=
  match py_hash str_hash type_hash v with
  | Some h => Ok (VInt h)
  | None => Raise TypeError
  end.

(** A [lambda self: body] called with anything besides [self] fails. *)
Definition lambda_self (body : value -> outcome value) : method :=
  fun self args kwargs =>
    match args, kwargs with
    | [], [] => (body self, self)
    | _, _ => (Raise TypeError, self)
    end.

(** [type(x)] with one argument. *)
Definition py_type (x : value) : outcome value := Ok (VType (type_of x)).

(** [lambda self: hash(tuple(self))] *)
Definition immutable_list___hash__ : method :=
  lambda_self (fun self => t ← py_tuple self; builtin_hash t).

(** [lambda self: (type(self), (tuple(self),))] *)
Definition immutable_list___reduce__ : method :=
  lambda_self (fun self =>
    ty ← py_type self;
    t ← py_tuple self;
    Ok (VTuple [ty; VTuple [t]])).

(** [lambda self: hash(tuple(self.items()))] *)
Definition immutable_dict___hash__ : method :=
  lambda_self (fun self =>
    items ← py_items self;
    builtin_hash (VTuple items)).

(** [lambda self: (type(self), (tuple(self.items()),))] *)
Definition immutable_dict___reduce__ : method :=
  lambda_self (fun self =>
    ty ← py_type self;
    items ← py_items self;
    Ok (VTuple [ty; VTuple [VTuple items]])).

Definition immutable_list : py_class :=
  compatibility true
    (_create_immutable_container_class base_list
       immutable_list_mutable_functions
       (Some (<["__reduce__" := immutable_list___reduce__]>
                (<["__hash__" := immutable_list___hash__]> ∅)))).

Definition immutable_dict : py_class :=
  compatibility true
    (_create_immutable_container_class base_dict
       immutable_dict_mutable_functions
       (Some (<["__reduce__" := immutable_dict___reduce__]>
                (<["__hash__" := immutable_dict___hash__]> ∅)))).

(** The class of an instance of one of the two module classes, and the
    built-in base of every list or dict. *)
Definition class_of (t : type_tag) : option py_class :=
  match t with
  | T_immutable_list => Some immutable_list
  | T_immutable_dict => Some immutable_dict
  | _ => None
  end.

Definition builtin_base (t : type_tag) : option base_kind :=
  match t with
  | T_list | T_immutable_list => Some base_list
  | T_dict | T_immutable_dict => Some base_dict
  | _ => None
  end.

(** Attribute lookup along the method resolution order: the namespace of
    the class first, then the base. *)
Definition lookup_method (t : type_tag) (name : string) : option method :=
  match class_of t with
  | Some cls =>
      match cls_namespace cls !! name with
      | Some f => Some f
      | None => base_method (cls_base cls) name
      end
  | None =>
      match builtin_base t with
      | Some b => base_method b name
      | None => None
      end
  end.

(** Calling the method [name] of [self] with the given arguments. *)
Definition call_method (self : value) (name : string)
    (args : list value) (kwargs : list (string * value))
  : outcome value * value :=
  match lookup_method (type_of self) name with
  | Some f => f self args kwargs
  | None => (Raise AttributeError, self)
  end.

(** ** Operators and the call of a type

    An operator, and the call of a type, go through the slot of the type for
    a special method: when the namespace of the class binds the name, the
    slot calls that function; otherwise the class inherits the slot of its
    built-in base. *)
Definition slot (t : type_tag) (name : string) : option method :=
  match class_of t with
  | Some cls => cls_namespace cls !! name
  | None => None
  end.

(** [a == b] as a truth value.  A class that binds [__eq__] answers for its
    instances, on whichever side they stand; otherwise the comparison is the
    built-in one. *)
Fixpoint py_eq (a b : value) {struct a} : outcome bool :=
  match slot (type_of a) "__eq__", slot (type_of b) "__eq__" with
  | Some f, _ =>
      match fst (f a [b] []) with
      | Ok r => Ok (truth r)
      | Raise e => Raise e
      end
  | None, Some f =>
      match fst (f b [a] []) with
      | Ok r => Ok (truth r)
      | Raise e => Raise e
      end
  | None, None => builtin_eq (py_hash str_hash type_hash) py_eq a b
  end.

(** Whether the stored key is the key [k] for a mapping. *)
Definition same_key (k stored : value) : outcome bool :=
  key_matches (py_hash str_hash type_hash) (py_eq k)
    (py_hash str_hash type_hash k) stored.

(** ** The built-in constructors *)

(** Storing [v] under [k] in the item table of a mapping: a key already
    present keeps its place (and its key object) and takes the new value, a
    new key goes to the end. *)
Fixpoint dict_store (k v : value) (items : list (value * value))
  : outcome (list (value * value)) :=
  match items with
  | [] => Ok [(k, v)]
  | (k', v') :: rest =>
      r ← same_key k k';
      if (r : bool) then Ok ((k', v) :: rest)
      else rest' ← dict_store k v rest; Ok ((k', v') :: rest')
  end.

Definition dict_setitem (k v : value) (items : list (value * value))
  : outcome (list (value * value)) :=
  match py_hash str_hash type_hash k with
  | Some _ => dict_store k v items
  | None => Raise TypeError
  end.

(** Storing a run of items one after the other. *)
Fixpoint dict_merge_items (new : list (value * value)) (items : list (value * value))
  : outcome (list (value * value)) :=
  match new with
  | [] => Ok items
  | (k, v) :: rest => items' ← dict_setitem k v items; dict_merge_items rest items'
  end.

(** An element of the iterable given to [dict(...)] must itself iterate to
    exactly two items. *)
Definition as_pair (elem : value) : outcome (value * value) :=
  xs ← py_iter elem;
  match xs with
  | [k; v] => Ok (k, v)
  | _ => Raise ValueError
  end.

(** Storing the pairs an iterable yields, element by element. *)
Fixpoint dict_merge_seq2 (elems : list value) (items : list (value * value))
  : outcome (list (value * value)) :=
  match elems with
  | [] => Ok items
  | e :: rest =>
      kv ← as_pair e;
      items' ← dict_setitem (fst kv) (snd kv) items;
      dict_merge_seq2 rest items'
  end.

(** [list.__init__] with positional arguments [args]: the new list takes the
    items of the iterable. *)
Definition list_init (args : list value) : outcome (list value) :=
  match args with
  | [] => Ok []
  | [iterable] => py_iter iterable
  | _ => Raise TypeError
  end.

(** [dict.__init__] with positional arguments [args]: a mapping gives its
    items, any other iterable must yield pairs; the items are stored in
    order into the empty table. *)
Definition dict_init (args : list value) : outcome (list (value * value)) :=
  match args with
  | [] => Ok []
  | [VDict kvs] | [VImmDict kvs] => dict_merge_items kvs []
  | [iterable] =>
      elems ← py_iter iterable;
      dict_merge_seq2 elems []
  | _ => Raise TypeError
  end.

(** The inherited [__new__] of a type: an empty list or dict of that type; a
    tuple takes its items there.  Of the scalar types only the calls that
    return their argument are written out. *)
Definition builtin_new (t : type_tag) (args : list value) : outcome value :=
  match t with
  | T_tuple =>
      match args with
      | [] => Ok (VTuple [])
      | [iterable] => py_tuple iterable
      | _ => Raise TypeError
      end
  | T_list => Ok (VList [])
  | T_immutable_list => Ok (VImmList [])
  | T_dict => Ok (VDict [])
  | T_immutable_dict => Ok (VImmDict [])
  | T_type => Raise TypeError
  | T_int =>
      match args with
      | [] => Ok (VInt 0)
      | [VInt n] => Ok (VInt n)
      | _ => Raise TypeError
      end
  | T_str =>
      match args with
      | [] => Ok (VStr "")
      | [VStr s] => Ok (VStr s)
      | _ => Raise TypeError
      end
  end.

(** The inherited [__init__]: the list or dict is filled from the arguments
    by the built-in code itself, through no method; the other types have
    nothing to initialise. *)
Definition builtin_init (obj : value) (args : list value) : outcome value :=
  match obj with
  | VList _ => xs ← list_init args; Ok (VList xs)
  | VImmList _ => xs ← list_init args; Ok (VImmList xs)
  | VDict _ => kvs ← dict_init args; Ok (VDict kvs)
  | VImmDict _ => kvs ← dict_init args; Ok (VImmDict kvs)
  | other => Ok other
  end.

(** Calling a type object with positional arguments: [__new__] makes the
    object and, when the object is of the type called, [__init__]
    initialises it and must return None, which no value of the universe is.
    The result comes with the names of the methods of the class namespace
    that were invoked on the way.  [type(x)] with one argument is the type
    of [x]. *)
Definition construct_run (t : type_tag) (args : list value)
  : outcome value * list string :=
  match t, args with
  | T_type, [x] => (py_type x, [])
  | _, _ =>
      let made :=
        match slot t "__new__" with
        | Some f => (fst (f (VType t) args []), ["__new__"])
        | None => (builtin_new t args, [])
        end in
      match fst made with
      | Raise e => (Raise e, snd made)
      | Ok obj =>
          if type_tag_eqb (type_of obj) t then
            match slot t "__init__" with
            | Some f =>
                (match fst (f obj args []) with
                 | Ok _ => Raise TypeError
                 | Raise e => Raise e
                 end, snd made ++ ["__init__"])
            | None => (builtin_init obj args, snd made)
            end
          else (Ok obj, snd made)
      end
  end.

Definition construct (t : type_tag) (args : list value) : outcome value :=
  fst (construct_run t args).

(** ** Values a program can build *)

(** The comparison returned false. *)
Definition differs (r : outcome bool) : bool :=
  match r with
  | Ok false => true
  | _ => false
  end.

(** No key of the table is, for a mapping, the key of a later item. *)
Fixpoint keys_unique (items : list (value * value)) : bool :=
  match items with
  | [] => true
  | (k, _) :: rest =>
      forallb (fun kv => differs (same_key (fst kv) k)) rest && keys_unique rest
  end.

(** Every mapping inside the value has hashable keys, no two of them the
    same key. *)
Fixpoint wf (v : value) : bool :=
  match v with
  | VInt _ | VStr _ | VType _ => true
  | VTuple xs | VList xs | VImmList xs => forallb wf xs
  | VDict kvs | VImmDict kvs =>
      forallb (fun kv => match kv with (k, v) => wf k && wf v && hashable k end) kvs
      && keys_unique kvs
  end.
(** ** The pytree adapter *)

(** Modelled from the spec: the flatten context of [torch.utils._pytree],
    which is not part of the sources at hand.  The spec makes the context of
    a sequence "empty/length-only" (its example: "a context encoding length
    3") and the context of a mapping "the matching ordered sequence of
    keys". *)
Inductive Context :=
| length_context (n : nat)
| keys_context (keys : list value).

(** Modelled from the spec: [_list_flatten] of [torch.utils._pytree].  One
    level only: "children are its elements in order and context is
    empty/length-only". *)
Definition _list_flatten (d : value) : outcome (list value * Context) :=
  match d with
  | VList xs | VImmList xs => Ok (xs, length_context (length xs))
  | _ => Raise TypeError
  end.

(** Modelled from the spec: [_list_flatten_with_keys] of
    [torch.utils._pytree]: "same decomposition but each child is paired with
    a keypath token identifying its position (numeric index for sequences,
    key value for mappings)". *)
Fixpoint enumerate_from (i : Z) (xs : list value) : list (value * value) :=
  match xs with
  | [] => []
  | x :: rest => (VInt i, x) :: enumerate_from (i + 1) rest
  end.

Definition _list_flatten_with_keys (d : value)
  : outcome (list (value * value) * Context) :=
  r ← _list_flatten d;
  Ok (enumerate_from 0 (fst r), snd r).

(** Modelled from the spec: [_list_unflatten] of [torch.utils._pytree]: a new
    plain sequence of the children; the spec leaves a children sequence of
    another length than the context records undefined, and no check is
    made. *)
Definition _list_unflatten (values : list value) (context : Context) : outcome value :=
  match context with
  | length_context _ => Ok (VList values)
  | keys_context _ => Raise TypeError
  end.

(** Modelled from the spec: [_dict_flatten] of [torch.utils._pytree]:
    "children are the values in a canonical order and context is the
    matching ordered sequence of keys"; the order is the one the mapping
    iterates in. *)
Definition _dict_flatten (d : value) : outcome (list value * Context) :=
  match d with
  | VDict kvs | VImmDict kvs => Ok (map snd kvs, keys_context (map fst kvs))
  | _ => Raise TypeError
  end.

(** Modelled from the spec: [_dict_flatten_with_keys] of
    [torch.utils._pytree]: each value paired with its key. *)
Definition _dict_flatten_with_keys (d : value)
  : outcome (list (value * value) * Context) :=
  match d with
  | VDict kvs | VImmDict kvs => Ok (kvs, keys_context (map fst kvs))
  | _ => Raise TypeError
  end.

(** Modelled from the spec: [_dict_unflatten] of [torch.utils._pytree]: the
    i-th key of the context takes the i-th child, and the plain mapping is
    built from these pairs in order. *)
Definition _dict_unflatten (values : list value) (context : Context) : outcome value :=
  match context with
  | keys_context keys =>
      kvs ← dict_merge_items (combine keys values) []; Ok (VDict kvs)
  | length_context _ => Raise TypeError
  end.

(** The adapter functions of the module (lines 93-112). *)
Definition _immutable_list_flatten (d : value) : outcome (list value * Context) :=
  _list_flatten d.

Definition _immutable_list_unflatten (values : list value) (context : Context)
  : outcome value :=
  l ← _list_unflatten values context;
  construct T_immutable_list [l].

Definition _immutable_dict_flatten (d : value) : outcome (list value * Context) :=
  _dict_flatten d.

Definition _immutable_dict_unflatten (values : list value) (context : Context)
  : outcome value :=
  m ← _dict_unflatten values context;
  construct T_immutable_dict [m].

(** Modelled from the spec: the registration record and
    [register_pytree_node] of [torch.utils._pytree]: "associates a container
    type with its flatten/flatten-with-keys/unflatten functions and a
    globally stable string identifier"; "source behavior registers
    unconditionally at import time". *)
Record registration := {
  reg_type : type_tag;
  flatten_fn : value -> outcome (list value * Context);
  unflatten_fn : list value -> Context -> outcome value;
  serialized_type_name : string;
  flatten_with_keys_fn : value -> outcome (list (value * value) * Context)
}.

Definition register_pytree_node (cls : type_tag)
    (flatten : value -> outcome (list value * Context))
    (unflatten : list value -> Context -> outcome value)
    (name : string)
    (flatten_with_keys : value -> outcome (list (value * value) * Context))
    (registry : list registration) : list registration :=
  registry ++ [ {| reg_type := cls; flatten_fn := flatten;
                   unflatten_fn := unflatten; serialized_type_name := name;
                   flatten_with_keys_fn := flatten_with_keys |} ].

(** The two registrations the module performs when it is loaded (lines
    115-128), on the registry it finds. *)
Definition module_load (registry : list registration) : list registration :=
  let registry :=
    register_pytree_node T_immutable_list
      _immutable_list_flatten _immutable_list_unflatten
      "torch.fx.immutable_collections.immutable_list"
      _list_flatten_with_keys registry in
  register_pytree_node T_immutable_dict
    _immutable_dict_flatten _immutable_dict_unflatten
    "torch.fx.immutable_collections.immutable_dict"
    _dict_flatten_with_keys registry.

(** The record registered for the type of [v], once the module is loaded
    into an empty registry. *)
Definition registered (t : type_tag) : option registration :=
  find (fun r => type_tag_eqb (reg_type r) t) (module_load []).

End Classes.

(** ** Notions used in the statements *)

(** Every key of the table is hashable. *)
Definition keys_hashable (kvs : list (value * value)) : bool :=
  forallb (fun kv => hashable (fst kv)) kvs.




(** No mapping occurs inside the value. *)
Fixpoint mapping_free (v : value) : bool :=
  match v with
  | VInt _ | VStr _ | VType _ => true
  | VTuple xs | VList xs | VImmList xs => forallb mapping_free xs
  | VDict _ | VImmDict _ => false
  end.


(** ** Sample instances *)

(** A runtime with constant string and type hashes and one inherited list
    method, and two instances holding nested containers. *)
Definition sample_str_hash : string -> Z := fun _ => 0.
Definition sample_type_hash : type_tag -> Z := fun _ => 0.

(** The inherited in-place concatenation of a list, [self += other]: the
    items of [other] are appended and [self] is returned. *)
Definition list___iadd__ : method := fun self args kwargs =>
  match args, kwargs with
  | [other], [] =>
      match py_iter other with
      | Ok ys =>
          match self with
          | VList xs => (Ok (VList (xs ++ ys)), VList (xs ++ ys))
          | VImmList xs => (Ok (VImmList (xs ++ ys)), VImmList (xs ++ ys))
          | _ => (Raise TypeError, self)
          end
      | Raise e => (Raise e, self)
      end
  | _, _ => (Raise TypeError, self)
  end.

Definition sample_base_method : base_kind -> string -> option method :=
  fun b name =>
    match b with
    | base_list => if String.eqb name "__iadd__" then Some list___iadd__ else None
    | base_dict => None
    end.





(** A mapping whose two keys are the equal mappings {1: 2, 3: 4} and
    {3: 4, 1: 2}: the keys hash differently, so they are two keys. *)
Definition sample_key_1 : value := VImmDict [(VInt 1, VInt 2); (VInt 3, VInt 4)].
Definition sample_key_2 : value := VImmDict [(VInt 3, VInt 4); (VInt 1, VInt 2)].

Definition sample_dict_of_equal_keys : value :=
  VImmDict [(sample_key_1, VInt 10); (sample_key_2, VInt 20)].

(** ** Induction over nested values *)

Section value_induction.
Variable P : value -> Prop.
Hypothesis HInt : forall n, P (VInt n).
Hypothesis HStr : forall s, P (VStr s).
Hypothesis HType : forall t, P (VType t).
Hypothesis HTuple : forall xs, Forall P xs -> P (VTuple xs).
Hypothesis HList : forall xs, Forall P xs -> P (VList xs).
Hypothesis HImmList : forall xs, Forall P xs -> P (VImmList xs).
Hypothesis HDict :
  forall kvs, Forall (fun kv => P (fst kv) /\ P (snd kv)) kvs -> P (VDict kvs).
Hypothesis HImmDict :
  forall kvs, Forall (fun kv => P (fst kv) /\ P (snd kv)) kvs -> P (VImmDict kvs).

Fixpoint value_nested_ind (v : value) : P v :=
  let seq_ind :=
    fix go (l : list value) : Forall P l :=
      match l with
      | [] => List.Forall_nil _
      | x :: r => @List.Forall_cons _ P x r (value_nested_ind x) (go r)
      end in
  let items_ind :=
    fix go (l : list (value * value))
      : Forall (fun kv => P (fst kv) /\ P (snd kv)) l :=
      match l with
      | [] => List.Forall_nil _
      | (k, w) :: r =>
          @List.Forall_cons _ _ (k, w) r (conj (value_nested_ind k) (value_nested_ind w)) (go r)
      end in
  match v with
  | VInt n => HInt n
  | VStr s => HStr s
  | VType t => HType t
  | VTuple xs => HTuple xs (seq_ind xs)
  | VList xs => HList xs (seq_ind xs)
  | VImmList xs => HImmList xs (seq_ind xs)
  | VDict kvs => HDict kvs (items_ind kvs)
  | VImmDict kvs => HImmDict kvs (items_ind kvs)
  end.
End value_induction.

(** * The runner determinator script

    [.github/scripts/runner_determinator.py].  A string is the sequence of
    its code points, each below 256; the records the script writes to its log
    are left out, as they do not influence what it returns or writes.  The
    GitHub service is a record of the answers it gives. *)

Module Runner.

(** ** Text operations of the host language *)

Definition newline : ascii := "010"%char.
Definition tab : ascii := "009"%char.

(** The characters [str.split()] separates on. *)
Definition is_space (c : ascii) : bool :=
  let n := nat_of_ascii c in
  ((9 <=? n) && (n <=? 13) || (28 <=? n) && (n <=? 31)
   || (n =? 32) || (n =? 133) || (n =? 160))%nat.

(** The characters [str.isnumeric()] accepts: the digits, the superscripts
    one to three and the three vulgar fractions. *)
Definition is_numeric_char (c : ascii) : bool :=
  let n := nat_of_ascii c in
  ((48 <=? n) && (n <=? 57) || (n =? 178) || (n =? 179) || (n =? 185)
   || (188 <=? n) && (n <=? 190))%nat.

Definition char_in (c : ascii) (chars : string) : bool :=
  existsb (Ascii.eqb c) (list_ascii_of_string chars).

(** [s.lstrip(chars)], [s.rstrip(chars)], [s.strip(chars)]. *)
Fixpoint lstrip (chars s : string) : string :=
  match s with
  | EmptyString => EmptyString
  | String c rest => if char_in c chars then lstrip chars rest else s
  end.

Fixpoint rstrip (chars s : string) : string :=
  match s with
  | EmptyString => EmptyString
  | String c rest =>
      match rstrip chars rest with
      | EmptyString => if char_in c chars then EmptyString else String c EmptyString
      | kept => String c kept
      end
  end.

Definition strip (chars s : string) : string := rstrip chars (lstrip chars s).

(** [s.split(sep)] for a separator of one character: every occurrence
    separates, so the result has one field more than there are separators. *)
Fixpoint split_char (sep : ascii) (s : string) : list string :=
  match s with
  | EmptyString => [EmptyString]
  | String c rest =>
      if Ascii.eqb c sep then EmptyString :: split_char sep rest
      else
        match split_char sep rest with
        | [] => [String c EmptyString]
        | field :: fields => String c field :: fields
        end
  end.

(** [s.split()]: the maximal runs of characters that are not whitespace. *)
Fixpoint split_whitespace (s : string) : list string :=
  match s with
  | EmptyString => []
  | String c rest =>
      if is_space c then split_whitespace rest
      else
        match rest with
        | EmptyString => [String c EmptyString]
        | String c' _ =>
            if is_space c' then String c EmptyString :: split_whitespace rest
            else
              match split_whitespace rest with
              | [] => [String c EmptyString]
              | word :: words => String c word :: words
              end
        end
  end.

(** [s.isnumeric()]: at least one character, all of them numeric. *)
Definition isnumeric (s : string) : bool :=
  match s with
  | EmptyString => false
  | _ => forallb is_numeric_char (list_ascii_of_string s)
  end.

(** [sep.join(parts)]. *)
Fixpoint join (sep : string) (parts : list string) : string :=
  match parts with
  | [] => EmptyString
  | [p] => p
  | p :: rest => (p ++ sep ++ join sep rest)%string
  end.

(** ** Exceptions and the GitHub service *)

Inductive exception :=
| IndexError
| ValueError
| UnboundLocalError
| Exception (msg : string) (cause : exception)
| ServiceError (detail : string).

Inductive attempt (A : Type) :=
| Returned (a : A)
| Raised (e : exception).
Arguments Returned {A} a.
Arguments Raised {A} e.

#[global] Instance attempt_bind : MBind attempt := fun A B k o =>
  match o with
  | Returned a => k a
  | Raised e => Raised e
  end.

(** [s[0]]. *)
Definition first_char (s : string) : attempt ascii :=
  match s with
  | EmptyString => Raised IndexError
  | String c _ => Returned c
  end.

(** [fields[0]] of the result of a split, which is never empty. *)
Definition first_field (fields : list string) : string := hd EmptyString fields.

(** A pull request answers with the login of its author
    ([pull.user.login]); an issue with the body of its first comment
    ([issue.get_comments()[0].body]), the same each time it is asked while
    the script runs; a repository with its pull requests and issues by
    number, and it has a printed form; the client with the repositories by
    name.  Any of these answers can be an error. *)
Record Pull := { user_login : attempt string }.
Record Issue := { first_comment_body : attempt string }.
Record Repository := {
  repository_str : string;
  get_pull : Z -> attempt Pull;
  repo_get_issue : Z -> attempt Issue
}.
Record Github := { get_repo : string -> attempt Repository }.

(** ** The script *)

Definition WORKFLOW_LABEL_META : string := "".
Definition WORKFLOW_LABEL_LF : string := "lf.".
Definition WORKFLOW_LABEL_LF_CANARY : string := "lf.c.".

Definition RUNNER_AMI_LEGACY : string := "".
Definition RUNNER_AMI_AMZ2023 : string := "amz2023".

Definition GH_OUTPUT_KEY_AMI : string := "runner-ami".
Definition GH_OUTPUT_KEY_LABEL_TYPE : string := "label-type".

(** What the script leaves behind: a line printed, or text appended to a
    file. *)
Inductive effect :=
| Print (line : string)
| Append (path : string) (text : string).

Definition get_issue (gh : Github) (repo : string) (issue_num : Z) : attempt Issue :=
  repo ← get_repo gh repo;
  repo_get_issue repo issue_num.

Definition is_exception_branch (branch : string) : bool :=
  bool_decide (first_field (split_char "/" branch)
               ∈ ({[ "main"; "nightly"; "release"; "landchecks" ]} : gset string)).

(** The characters stripped around the comment and around a user entry. *)
Definition comment_blanks : string :=
  String newline (String tab (String " " EmptyString)).
Definition entry_blanks : string :=
  String newline (String tab (String "@" (String " " EmptyString))).

Definition get_workflow_type (issue : Issue) (workflow_requestors : list string)
  : string :=
  let attempted : attempt string :=
    body ← first_comment_body issue;
    let first_comment := strip comment_blanks body in
    c ← first_char first_comment;
    if Ascii.eqb c "!" then Returned WORKFLOW_LABEL_META
    else if Ascii.eqb c "*" then Returned WORKFLOW_LABEL_LF
    else
      let all_opted_in_users : gset string :=
        list_to_set
          (map (fun usr_raw => first_field (split_char "," (strip entry_blanks usr_raw)))
               (split_whitespace first_comment)) in
      let opted_in_requestors : gset string :=
        list_to_set
          (filter (fun usr => usr ∈ all_opted_in_users) workflow_requestors) in
      if bool_decide (opted_in_requestors <> ∅) then Returned WORKFLOW_LABEL_LF
      else Returned WORKFLOW_LABEL_META in
  match attempted with
  | Returned label => label
  | Raised e => WORKFLOW_LABEL_META
  end.

Definition get_optin_feature (issue : Issue) (workflow_requestors : list string)
    (feature fallback : string) : string :=
  let attempted : attempt string :=
    body ← first_comment_body issue;
    let first_comment := strip comment_blanks body in
    let userlist : gset string :=
      list_to_set
        (map (fun u => strip entry_blanks (lstrip "#" u))
             (split_whitespace first_comment)) in
    let all_opted_in_users : gset string :=
      list_to_set
        (map (fun user => first_field (split_char "," user))
             (filter (fun user => feature ∈ split_char "," user)
                     (elements userlist))) in
    let opted_in_requestors : gset string :=
      list_to_set
        (filter (fun usr => usr ∈ all_opted_in_users) workflow_requestors) in
    if bool_decide (opted_in_requestors <> ∅) then Returned feature
    else Returned fallback in
  match attempted with
  | Returned choice => choice
  | Raised e => fallback
  end.

(** The parsed command line. *)
Record Args := {
  github_token : string;
  github_issue_repo : string;
  github_repo : string;
  github_issue : Z;
  github_actor : string;
  github_issue_owner : string;
  github_branch : string;
  github_ref_type : string
}.

Section script.
(** The value of the environment variable GITHUB_OUTPUT, the conversion
    [int(s)] of the host language and the connection to the service. *)
Variable GITHUB_OUTPUT : string.
Variable py_int : string -> attempt Z.
Variable get_gh_client : string -> attempt Github.

(** The output is printed when GITHUB_OUTPUT is empty and appended to the
    file of that name otherwise; the write is taken to succeed. *)
Definition set_github_output (key value : string) : list effect :=
  if String.eqb GITHUB_OUTPUT "" then
    [Print ("::set-output name=" ++ key ++ "::" ++ value)]
  else
    [Append GITHUB_OUTPUT (key ++ "=" ++ value ++ String newline EmptyString)].

(** When the repository cannot be fetched, the handler formats the name
    [repository], which is still unbound. *)
Definition get_potential_pr_author (gh : Github) (repo username ref_type ref_name : string)
  : attempt string :=
  if String.eqb username "pytorch-bot[bot]" && String.eqb ref_type "tag" then
    let split_tag := split_char "/" ref_name in
    match split_tag with
    | [t0; t1; t2] =>
        if String.eqb t0 "ciflow" && isnumeric t2 then
          let pr_number := t2 in
          match get_repo gh repo with
          | Raised e => Raised UnboundLocalError
          | Returned repository =>
              match (number ← py_int pr_number; get_pull repository number) with
              | Raised e =>
                  Raised (Exception ("issue with pull request " ++ pr_number
                                     ++ " from repo " ++ repository_str repository) e)
              | Returned pull => user_login pull
              end
          end
        else Returned username
    | _ => Returned username
    end
  else Returned username.

(** The label type and the runner image [main] decides on. *)
Definition main_decision (args : Args) : string * string :=
  let chosen : string * string :=
    if String.eqb (github_ref_type args) "branch"
       && is_exception_branch (github_branch args)
    then (WORKFLOW_LABEL_META, RUNNER_AMI_LEGACY)
    else
      let attempted : attempt (string * string) :=
        gh ← get_gh_client (github_token args);
        issue ← get_issue gh (github_issue_repo args) (github_issue args);
        username ← get_potential_pr_author gh (github_repo args) (github_actor args)
                     (github_ref_type args) (github_branch args);
        let label_type :=
          get_workflow_type issue [github_issue_owner args; username] in
        let runner_ami :=
          get_optin_feature issue [github_issue_owner args; username]
            RUNNER_AMI_AMZ2023 RUNNER_AMI_LEGACY in
        Returned (label_type, runner_ami) in
      match attempted with
      | Returned decided => decided
      | Raised e => (WORKFLOW_LABEL_META, RUNNER_AMI_LEGACY)
      end in
  let label_type := fst chosen in
  let runner_ami := snd chosen in
  let label_type :=
    if String.eqb (github_repo args) "pytorch/pytorch-canary"
       && String.eqb label_type WORKFLOW_LABEL_LF
    then WORKFLOW_LABEL_LF_CANARY else label_type in
  (label_type, runner_ami).

Definition main (args : Args) : list effect :=
  let decided := main_decision args in
  set_github_output GH_OUTPUT_KEY_LABEL_TYPE (fst decided)
  ++ set_github_output GH_OUTPUT_KEY_AMI (snd decided).
End script.

(** ** The user list of the module's documentation *)

(** Every character of the string satisfies [p]. *)
Fixpoint all_chars (p : ascii -> bool) (s : string) : bool :=
  match s with
  | EmptyString => true
  | String c rest => p c && all_chars p rest
  end.

(** A character that can stand in a user or feature name: no whitespace and
    none of the three characters the user list gives a meaning to. *)
Definition name_char (c : ascii) : bool :=
  negb (is_space c) && negb (char_in c "#@,").

Definition not_space (c : ascii) : bool := negb (is_space c).
Definition not_comma (c : ascii) : bool := negb (Ascii.eqb c ",").
Definition not_entry_blank (c : ascii) : bool := negb (char_in c entry_blanks).

(** A word: not empty and without whitespace. *)
Definition word_ok (w : string) : Prop :=
  w <> "" /\ all_chars not_space w = true.

(** An entry of the user list: "@user,feature,..." or, for a user opted
    out of the new runners, "#@user,feature,...". *)
Record entry := {
  opted_out : bool;
  user : string;
  features : list string
}.

Definition valid_entry (e : entry) : bool :=
  negb (String.eqb (user e) "")
  && all_chars name_char (user e)
  && forallb (all_chars name_char) (features e).

Fixpoint render_features (fs : list string) : string :=
  match fs with
  | [] => EmptyString
  | f :: rest => String "," (f ++ render_features rest)
  end.

Definition render_entry (e : entry) : string :=
  ((if opted_out e then "#" else "") ++ "@" ++ user e
   ++ render_features (features e))%string.

(** The entries, one per line. *)
Definition render_user_list (es : list entry) : string :=
  join (String newline EmptyString) (map render_entry es).

(** The name the label decision reads from an entry: an entry opted out
    keeps its marks in front of the user. *)
Definition workflow_name (e : entry) : string :=
  if opted_out e then String "#" (String "@" (user e)) else user e.

(** What an entry reads after its marks: the user and the features. *)
Definition entry_text (e : entry) : string :=
  (user e ++ render_features (features e))%string.

(** ** A sample service *)

(** [int(s)] on decimal digits. *)
Definition digit_value (c : ascii) : option Z :=
  let n := nat_of_ascii c in
  if ((48 <=? n) && (n <=? 57))%nat then Some (Z.of_nat n - 48) else None.

Fixpoint decimal_value (acc : Z) (s : string) : attempt Z :=
  match s with
  | EmptyString => Returned acc
  | String c rest =>
      match digit_value c with
      | Some d => decimal_value (10 * acc + d) rest
      | None => Raised ValueError
      end
  end.

Definition sample_int (s : string) : attempt Z :=
  match s with
  | EmptyString => Raised ValueError
  | _ => decimal_value 0 s
  end.

Definition sample_user_list : list entry :=
  [ {| opted_out := false; user := "User1"; features := [] |};
    {| opted_out := false; user := "User2"; features := ["amz2023"] |};
    {| opted_out := true; user := "UserOptOutOfNewRunner"; features := ["amz2023"] |} ].

Definition sample_issue : Issue :=
  {| first_comment_body := Returned (render_user_list sample_user_list) |}.

Definition sample_pull : Pull := {| user_login := Returned "User2" |}.

Definition sample_repository : Repository :=
  {| repository_str := "Repository(full_name=pytorch/pytorch)";
     get_pull := fun number =>
       if number =? 42 then Returned sample_pull
       else Raised (ServiceError "404");
     repo_get_issue := fun number =>
       if number =? 5132 then Returned sample_issue
       else Raised (ServiceError "404") |}.

Definition sample_github : Github :=
  {| get_repo := fun name =>
       if String.eqb name "pytorch/pytorch" || String.eqb name "pytorch/test-infra"
       then Returned sample_repository
       else Raised (ServiceError "404") |}.

Definition sample_client (token : string) : attempt Github :=
  if String.eqb token "" then Raised (ServiceError "401") else Returned sample_github.

Definition sample_args : Args :=
  {| github_token := "token";
     github_issue_repo := "pytorch/test-infra";
     github_repo := "pytorch/pytorch";
     github_issue := 5132;
     github_actor := "pytorch-bot[bot]";
     github_issue_owner := "User1";
     github_branch := "ciflow/trunk/42";
     github_ref_type := "tag" |}.

Definition sample_release_args : Args :=
  {| github_token := "token";
     github_issue_repo := "pytorch/test-infra";
     github_repo := "pytorch/pytorch";
     github_issue := 5132;
     github_actor := "User2";
     github_issue_owner := "User1";
     github_branch := "release/2.1";
     github_ref_type := "branch" |}.

Definition sample_args_without_token : Args :=
  {| github_token := "";
     github_issue_repo := "pytorch/test-infra";
     github_repo := "pytorch/pytorch-canary";
     github_issue := 5132;
     github_actor := "User2";
     github_issue_owner := "User1";
     github_branch := "feature/x";
     github_ref_type := "branch" |}.

End Runner.


(** * Properties *)

(** ** The namespace the factory builds *)

Lemma add_if_absent_bound a g (ns : gmap string method) (m : string) f :
  ns !! m = Some f -> add_if_absent a g ns !! m = Some f.
Proof.
  intros Hm. unfold add_if_absent. destruct (ns !! a) eqn:E; [done|].
  rewrite lookup_insert_ne; [done|]. intros ->. congruence.
Qed.

Lemma add_if_absent_other a g (ns : gmap string method) (m : string) :
  a <> m -> add_if_absent a g ns !! m = ns !! m.
Proof.
  intros Hne. unfold add_if_absent. destruct (ns !! a); [done|].
  by rewrite lookup_insert_ne.
Qed.

Lemma add_if_absent_new a g (ns : gmap string method) :
  ns !! a = None -> add_if_absent a g ns !! a = Some g.
Proof.
  intros Hm. unfold add_if_absent. rewrite Hm. apply lookup_insert_eq.
Qed.

(** What [type] finds bound in the namespace stays as it is. *)
Lemma type_new_bound name base (ns : gmap string method) (m : string) f :
  ns !! m = Some f ->
  cls_namespace (type_new name base ns) !! m = Some f.
Proof.
  intros Hm. unfold type_new. cbn [cls_namespace].
  set (ns' := foldr _ _ _).
  assert (ns' !! m = Some f) as Hm'.
  { subst ns'. simpl. by do 4 apply add_if_absent_bound. }
  destruct (ns' !! "__eq__"); [|done].
  destruct (ns' !! "__hash__") eqn:E; [done|].
  rewrite lookup_insert_ne; [done|]. intros <-. congruence.
Qed.

(** A name that is neither bound nor implicit is not in the class. *)
Lemma type_new_unbound name base (ns : gmap string method) (m : string) :
  ns !! m = None ->
  ~ In m implicit_attributes ->
  m <> "__hash__" ->
  cls_namespace (type_new name base ns) !! m = None.
Proof.
  intros Hm Himp Hhash. unfold type_new. cbn [cls_namespace].
  set (ns' := foldr _ _ _).
  assert (ns' !! m = None) as Hm'.
  { subst ns'. simpl in *. rewrite !add_if_absent_other; [done|..]; intros <-; tauto. }
  destruct (ns' !! "__eq__"); [|done].
  destruct (ns' !! "__hash__"); [done|].
  by rewrite lookup_insert_ne.
Qed.

(** An implicit attribute the namespace does not bind cannot be called. *)
Lemma type_new_implicit name base (ns : gmap string method) (m : string) :
  ns !! m = None ->
  In m implicit_attributes ->
  cls_namespace (type_new name base ns) !! m = Some attribute_not_callable.
Proof.
  intros Hm Himp. unfold type_new. cbn [cls_namespace].
  set (ns' := foldr _ _ _).
  assert (ns' !! m = Some attribute_not_callable) as Hm'.
  { subst ns'. simpl in *.
    destruct Himp as [<-|[<-|[<-|[<-|[]]]]].
    - by apply add_if_absent_new; rewrite !add_if_absent_other.
    - apply add_if_absent_bound. by apply add_if_absent_new; rewrite !add_if_absent_other.
    - do 2 apply add_if_absent_bound.
      by apply add_if_absent_new; rewrite !add_if_absent_other.
    - do 3 apply add_if_absent_bound. by apply add_if_absent_new. }
  destruct (ns' !! "__eq__"); [|done].
  destruct (ns' !! "__hash__"); [done|].
  rewrite lookup_insert_ne; [done|]. intros <-.
  simpl in Himp. intuition discriminate.
Qed.

Lemma namespace_update_keeps (f : method) names : forall ns (m : string),
  ns !! m = Some f ->
  namespace_update ns (map (fun name => (name, f)) names) !! m = Some f.
Proof.
  induction names as [|a names IH]; intros ns m Hm; simpl; [done|].
  apply IH. destruct (decide (a = m)) as [->|Hne].
  - apply lookup_insert_eq.
  - by rewrite lookup_insert_ne.
Qed.

Lemma namespace_update_blocked (f : method) names : forall ns (m : string),
  In m names ->
  namespace_update ns (map (fun name => (name, f)) names) !! m = Some f.
Proof.
  induction names as [|a names IH]; intros ns m Hin; simpl; [done|].
  destruct (decide (a = m)) as [->|Hne].
  - apply namespace_update_keeps, lookup_insert_eq.
  - destruct Hin as [?|Hin]; [done|]. by apply IH.
Qed.

Lemma namespace_update_other (f : method) names : forall ns (m : string),
  ~ In m names ->
  namespace_update ns (map (fun name => (name, f)) names) !! m = ns !! m.
Proof.
  induction names as [|a names IH]; intros ns m Hin; simpl in *; [done|].
  rewrite IH by tauto.
  apply lookup_insert_ne. intros ->. apply Hin. by left.
Qed.

(** Every name handed to the factory as mutable is bound to [_no_mutation]
    in the class it returns, whatever the namespace it started from. *)
Lemma factory_blocks base names namespace m :
  In m names ->
  cls_namespace (_create_immutable_container_class base names namespace) !! m
  = Some _no_mutation.
Proof.
  intros Hin. unfold _create_immutable_container_class.
  by apply type_new_bound, namespace_update_blocked.
Qed.

(** Every other name the given namespace binds keeps its entry. *)
Lemma factory_keeps base names namespace m f :
  ~ In m names ->
  default ∅ namespace !! m = Some f ->
  cls_namespace (_create_immutable_container_class base names namespace) !! m
  = Some f.
Proof.
  intros Hin Hm. unfold _create_immutable_container_class.
  apply type_new_bound. by rewrite namespace_update_other.
Qed.

(** A name that is not given as mutable, not bound by the given namespace
    and not implicit is not in the class. *)
Lemma factory_unbound base names namespace m :
  ~ In m names ->
  default ∅ namespace !! m = None ->
  ~ In m implicit_attributes ->
  m <> "__hash__" ->
  cls_namespace (_create_immutable_container_class base names namespace) !! m
  = None.
Proof.
  intros Hin Hm Himp Hhash. unfold _create_immutable_container_class.
  apply type_new_unbound; [|done|done]. by rewrite namespace_update_other.
Qed.

Lemma factory_implicit base names namespace m :
  ~ In m names ->
  default ∅ namespace !! m = None ->
  In m implicit_attributes ->
  cls_namespace (_create_immutable_container_class base names namespace) !! m
  = Some attribute_not_callable.
Proof.
  intros Hin Hm Himp. unfold _create_immutable_container_class.
  apply type_new_implicit; [|done]. by rewrite namespace_update_other.
Qed.

Lemma factory_name base names namespace :
  cls_name (_create_immutable_container_class base names namespace)
  = ("immutable_" ++ base_name base)%string.
Proof. done. Qed.

Section class_facts.
Variable str_hash : string -> Z.
Variable type_hash : type_tag -> Z.

Local Abbreviation hash := (py_hash str_hash type_hash).
Local Abbreviation immutable_list := (immutable_list str_hash type_hash).
Local Abbreviation immutable_dict := (immutable_dict str_hash type_hash).
Local Abbreviation slot := (slot str_hash type_hash).
Local Abbreviation py_eq := (py_eq str_hash type_hash).
Local Abbreviation same_key := (same_key str_hash type_hash).
Local Abbreviation wf := (wf str_hash type_hash).
Local Abbreviation keys_unique := (keys_unique str_hash type_hash).
Local Abbreviation dict_store := (dict_store str_hash type_hash).
Local Abbreviation dict_setitem := (dict_setitem str_hash type_hash).
Local Abbreviation dict_merge_items := (dict_merge_items str_hash type_hash).
Local Abbreviation dict_merge_seq2 := (dict_merge_seq2 str_hash type_hash).
Local Abbreviation dict_init := (dict_init str_hash type_hash).
Local Abbreviation builtin_init := (builtin_init str_hash type_hash).
Local Abbreviation construct_run := (construct_run str_hash type_hash).
Local Abbreviation construct := (construct str_hash type_hash).






(** Neither class binds a name that is not in its tuple of mutable
    functions, not one of its two own entries and not implicit. *)
Lemma class_lacks t cls (op : string) :
  class_of str_hash type_hash t = Some cls ->
  ~ In op (immutable_list_mutable_functions ++ immutable_dict_mutable_functions) ->
  op <> "__hash__" -> op <> "__reduce__" ->
  ~ In op implicit_attributes ->
  cls_namespace cls !! op = None.
Proof.
  intros Hcls Hout Hh Hr Himp.
  assert (~ In op immutable_list_mutable_functions /\
          ~ In op immutable_dict_mutable_functions) as [Hl Hd].
  { split; intros Hin; apply Hout, in_or_app; auto. }
  destruct t; try discriminate; injection Hcls as <-.
  - unfold immutable_list, compatibility. apply factory_unbound; try done.
    simpl default. rewrite !lookup_insert_ne by done. apply lookup_empty.
  - unfold immutable_dict, compatibility. apply factory_unbound; try done.
    simpl default. rewrite !lookup_insert_ne by done. apply lookup_empty.
Qed.

(** The slots the two classes inherit: comparison, creation and
    initialisation are those of the built-in base. *)
Lemma slot_inherited t (name : string) :
  In name ["__eq__"; "__new__"; "__init__"] ->
  slot t name = None.
Proof.
  intros Hin. unfold slot.
  destruct (class_of str_hash type_hash t) as [cls|] eqn:Hcls; [|done].
  apply (class_lacks t); try done;
    simpl in *; intuition (subst; discriminate).
Qed.

(** With the comparison inherited, [==] is the built-in comparison. *)
Lemma py_eq_unfold a b : py_eq a b = builtin_eq hash py_eq a b.
Proof.
  assert (py_eq a b
          = match slot (type_of a) "__eq__", slot (type_of b) "__eq__" with
            | Some f, _ =>
                match fst (f a [b] []) with
                | Ok r => Ok (truth r)
                | Raise e => Raise e
                end
            | None, Some f =>
                match fst (f b [a] []) with
                | Ok r => Ok (truth r)
                | Raise e => Raise e
                end
            | None, None => builtin_eq hash py_eq a b
            end) as -> by by destruct a.
  rewrite !slot_inherited; [done| |]; simpl; auto.
Qed.

(** ** What hashing accepts *)

Lemma forallb_false_exists {A} (f : A -> bool) l :
  forallb f l = false <-> exists x, In x l /\ f x = false.
Proof.
  induction l as [|a l IH]; simpl.
  - split; [done | intros (x & [] & _)].
  - rewrite andb_false_iff, IH. split.
    + intros [Ha|(x & Hin & Hx)]; eauto.
    + intros (x & [->|Hin] & Hx); eauto.
Qed.

Lemma tuplehash_loop_none lanes : forall acc,
  tuplehash_loop acc lanes = None <-> In None lanes.
Proof.
  induction lanes as [|[lane|] rest IH]; intros acc; simpl.
  - split; [done | tauto].
  - rewrite IH. split; [tauto | intros [|]; done].
  - split; auto.
Qed.

Lemma tuplehash_none lanes : tuplehash lanes = None <-> In None lanes.
Proof.
  unfold tuplehash. rewrite <- (tuplehash_loop_none lanes PyHASH_XXPRIME_5).
  by destruct (tuplehash_loop _ _).
Qed.

Lemma hash_seq_none xs :
  tuplehash (map hash xs) = None <-> exists x, In x xs /\ hash x = None.
Proof.
  rewrite tuplehash_none, in_map_iff. split.
  - intros (x & Hx & Hin). eauto.
  - intros (x & Hin & Hx). eauto.
Qed.

Lemma hash_pair_none k v :
  tuplehash [hash k; hash v] = None <-> hash k = None \/ hash v = None.
Proof.
  rewrite tuplehash_none. simpl. split; [intros [|[|[]]]; auto | intros [|]; auto].
Qed.

Lemma hash_items_none kvs :
  tuplehash (map (fun kv => match kv with
                            | (k, v) => tuplehash [hash k; hash v]
                            end) kvs) = None
  <-> exists k v, In (k, v) kvs /\ hash (VTuple [k; v]) = None.
Proof.
  rewrite tuplehash_none, in_map_iff. split.
  - intros ([k v] & Hx & Hin). exists k, v. by split.
  - intros (k & v & Hin & Hx). exists (k, v). by split.
Qed.

(** [hashable] decides whether [hash] returns. *)
Lemma hashable_spec v : hashable v = false <-> hash v = None.
Proof.
  induction v as [n|s|t|xs IH|xs _|xs IH|kvs _|kvs IH] using value_nested_ind;
    simpl; try done.
  - rewrite hash_seq_none, forallb_false_exists.
    rewrite List.Forall_forall in IH.
    split; intros (x & Hin & Hx); exists x; (split; [done|]); by apply IH.
  - rewrite hash_seq_none, forallb_false_exists.
    rewrite List.Forall_forall in IH.
    split; intros (x & Hin & Hx); exists x; (split; [done|]); by apply IH.
  - rewrite hash_items_none, forallb_false_exists.
    rewrite List.Forall_forall in IH. split.
    + intros ([k v] & Hin & Hx). exists k, v. split; [done|].
      apply hash_pair_none. destruct (IH _ Hin) as [Hk Hv]. simpl in *.
      apply andb_false_iff in Hx as [Hx|Hx]; [left|right]; tauto.
    + intros (k & v & Hin & Hx). exists (k, v). split; [done|].
      apply hash_pair_none in Hx. destruct (IH _ Hin) as [Hk Hv]. simpl in *.
      apply andb_false_iff. destruct Hx as [Hx|Hx]; [left|right]; tauto.
Qed.

Lemma hashable_some v : hashable v = true -> exists h, hash v = Some h.
Proof.
  intros Hv. destruct (hash v) as [h|] eqn:E; [by exists h|].
  apply hashable_spec in E. congruence.
Qed.

(** ** Equality is reflexive on the values a program can build *)

Lemma type_tag_eqb_refl t : type_tag_eqb t t = true.
Proof. by destruct t. Qed.

Lemma seq_eq_refl xs :
  Forall (fun x => wf x = true -> py_eq x x = Ok true) xs ->
  forallb (wf) xs = true ->
  seq_eq py_eq xs xs = Ok true.
Proof.
  induction 1 as [|x xs Hx _ IH]; simpl; [done|].
  intros [Hw Hws]%andb_true_iff.
  rewrite Hx by done. by apply IH.
Qed.

(** A key is the same key as itself. *)
Lemma same_key_own k :
  hashable k = true -> py_eq k k = Ok true -> same_key k k = Ok true.
Proof.
  intros [h Hh]%hashable_some Heq.
  unfold same_key, key_matches. by rewrite Hh, Z.eqb_refl.
Qed.

Lemma keys_unique_later k0 v0 rest k v :
  keys_unique ((k0, v0) :: rest) = true ->
  In (k, v) rest -> same_key k k0 = Ok false.
Proof.
  simpl. intros [Hall _]%andb_true_iff Hin.
  rewrite forallb_forall in Hall. specialize (Hall _ Hin). simpl in Hall.
  destruct (same_key k k0) as [[|]|]; done.
Qed.

Lemma assoc_lookup_own kvs k v :
  keys_unique kvs = true ->
  same_key k k = Ok true ->
  In (k, v) kvs ->
  assoc_lookup (same_key k) kvs = Ok (Some v).
Proof.
  induction kvs as [|[k0 v0] rest IH]; simpl; [done|].
  intros Hu Hk [Heq|Hin].
  - inversion Heq; subst. by rewrite Hk.
  - rewrite (keys_unique_later k0 v0 rest k v) by done.
    apply andb_true_iff in Hu as [_ Hu]. by apply IH.
Qed.

Lemma items_all_true check kvs :
  (forall k v, In (k, v) kvs -> check k v = Ok true) ->
  items_all check kvs = Ok true.
Proof.
  induction kvs as [|[k v] rest IH]; simpl; [done|].
  intros Hall. rewrite (Hall k v) by auto. apply IH. auto.
Qed.

Lemma py_eq_refl v : wf v = true -> py_eq v v = Ok true.
Proof.
  induction v as [n|s|t|xs IH|xs IH|xs IH|kvs IH|kvs IH] using value_nested_ind;
    intros Hw; rewrite py_eq_unfold; simpl in *.
  - by rewrite Z.eqb_refl.
  - by rewrite String.eqb_refl.
  - by rewrite type_tag_eqb_refl.
  - by apply seq_eq_refl.
  - rewrite Nat.eqb_refl. by apply seq_eq_refl.
  - rewrite Nat.eqb_refl. by apply seq_eq_refl.
  - rewrite Nat.eqb_refl. apply andb_true_iff in Hw as [Hw Hu].
    apply items_all_true. intros k v Hin.
    rewrite List.Forall_forall in IH. rewrite forallb_forall in Hw.
    destruct (IH _ Hin) as [IHk IHv]. specialize (Hw _ Hin). simpl in *.
    apply andb_true_iff in Hw as [[Hwk Hwv]%andb_true_iff Hh].
    change (key_matches hash (py_eq k) (hash k)) with (same_key k).
    rewrite (assoc_lookup_own kvs k v); auto using same_key_own.
  - rewrite Nat.eqb_refl. apply andb_true_iff in Hw as [Hw Hu].
    apply items_all_true. intros k v Hin.
    rewrite List.Forall_forall in IH. rewrite forallb_forall in Hw.
    destruct (IH _ Hin) as [IHk IHv]. specialize (Hw _ Hin). simpl in *.
    apply andb_true_iff in Hw as [[Hwk Hwv]%andb_true_iff Hh].
    change (key_matches hash (py_eq k) (hash k)) with (same_key k).
    rewrite (assoc_lookup_own kvs k v); auto using same_key_own.
Qed.

(** An instance of a subclass compares as the plain container of the same
    contents does, on either side. *)
Lemma py_eq_immutable_list_l xs b : py_eq (VImmList xs) b = py_eq (VList xs) b.
Proof. by rewrite !py_eq_unfold. Qed.

Lemma py_eq_immutable_list_r a xs : py_eq a (VImmList xs) = py_eq a (VList xs).
Proof. rewrite !py_eq_unfold. by destruct a. Qed.

Lemma py_eq_immutable_dict_l kvs b : py_eq (VImmDict kvs) b = py_eq (VDict kvs) b.
Proof. by rewrite !py_eq_unfold. Qed.

Lemma py_eq_immutable_dict_r a kvs : py_eq a (VImmDict kvs) = py_eq a (VDict kvs).
Proof. rewrite !py_eq_unfold. by destruct a. Qed.

(** ** Rebuilding a mapping from its own items *)

Lemma wf_items_keys_hashable kvs :
  forallb (fun kv => match kv with (k, v) => wf k && wf v && hashable k end) kvs = true ->
  keys_hashable kvs = true.
Proof.
  unfold keys_hashable. rewrite !forallb_forall.
  intros H [k v] Hin. specialize (H _ Hin). simpl in *.
  by apply andb_true_iff in H as [_ H].
Qed.

Lemma wf_items_parts kvs :
  wf (VImmDict kvs) = true ->
  keys_hashable kvs = true /\ keys_unique kvs = true.
Proof.
  simpl. intros [Hw Hu]%andb_true_iff. split; [|done].
  by apply wf_items_keys_hashable.
Qed.

Lemma dict_store_fresh k v items :
  (forall kv, In kv items -> same_key k (fst kv) = Ok false) ->
  dict_store k v items = Ok (items ++ [(k, v)]).
Proof.
  induction items as [|[k0 v0] rest IH]; simpl; intros Hfresh; [done|].
  pose proof (Hfresh (k0, v0) (or_introl eq_refl)) as Hk0. simpl in Hk0.
  rewrite Hk0. simpl. rewrite IH; auto.
Qed.

Lemma keys_unique_app_fresh acc k v rest :
  keys_unique (acc ++ (k, v) :: rest) = true ->
  forall kv, In kv acc -> same_key k (fst kv) = Ok false.
Proof.
  induction acc as [|[k0 v0] acc IH]; simpl; [done|].
  intros [Hall Hu]%andb_true_iff kv [<-|Hin]; simpl.
  - rewrite forallb_forall in Hall.
    specialize (Hall (k, v)). simpl in Hall.
    destruct (same_key k k0) as [[|]|]; try done;
      discriminate Hall; apply in_or_app; right; by left.
  - by apply IH.
Qed.

Lemma dict_merge_items_unique new : forall acc,
  keys_hashable new = true ->
  keys_unique (acc ++ new) = true ->
  dict_merge_items new acc = Ok (acc ++ new).
Proof.
  induction new as [|[k v] rest IH]; intros acc Hh Hu; simpl.
  - by rewrite app_nil_r.
  - apply andb_true_iff in Hh as [Hk Hh]. simpl in Hk.
    unfold dict_setitem. destruct (hashable_some k Hk) as [h ->].
    rewrite (dict_store_fresh k v acc) by eauto using keys_unique_app_fresh.
    simpl. rewrite IH; rewrite <- ?app_assoc; done.
Qed.

(** A well-formed item table is what storing its items one by one into the
    empty table gives back. *)
Lemma dict_merge_items_own kvs :
  keys_hashable kvs = true ->
  keys_unique kvs = true ->
  dict_merge_items kvs [] = Ok kvs.
Proof. intros. by rewrite dict_merge_items_unique. Qed.


(** ** The call of one of the two classes *)

(** Creation and initialisation are inherited, so the call of a class runs
    the built-in ones and invokes no method of the class namespace. *)
Lemma construct_run_immutable_list args :
  construct_run T_immutable_list args
  = (builtin_init (VImmList []) args, []).
Proof.
  unfold construct_run. rewrite !slot_inherited by (simpl; auto). done.
Qed.

Lemma construct_run_immutable_dict args :
  construct_run T_immutable_dict args
  = (builtin_init (VImmDict []) args, []).
Proof.
  unfold construct_run. rewrite !slot_inherited by (simpl; auto). done.
Qed.

Lemma construct_list args : construct T_list args = builtin_init (VList []) args.
Proof. reflexivity. Qed.

Lemma construct_dict args : construct T_dict args = builtin_init (VDict []) args.
Proof. reflexivity. Qed.

Lemma construct_immutable_list args :
  construct T_immutable_list args = builtin_init (VImmList []) args.
Proof. unfold construct. by rewrite construct_run_immutable_list. Qed.

Lemma construct_immutable_dict args :
  construct T_immutable_dict args = builtin_init (VImmDict []) args.
Proof. unfold construct. by rewrite construct_run_immutable_dict. Qed.
End class_facts.

(** ** Where the hash follows equality *)

Section hash_and_equality.
Variable str_hash : string -> Z.
Variable type_hash : type_tag -> Z.
Local Abbreviation hash := (py_hash str_hash type_hash).
Local Abbreviation py_eq := (py_eq str_hash type_hash).

Lemma type_tag_eqb_eq s t : type_tag_eqb s t = true -> s = t.
Proof. by destruct s, t. Qed.

Lemma hash_seq_respects_eq xs : forall ys,
  Forall (fun a => forall b, mapping_free a = true -> py_eq a b = Ok true ->
                   hash a <> None -> hash b <> None -> hash a = hash b) xs ->
  forallb mapping_free xs = true ->
  seq_eq py_eq xs ys = Ok true ->
  tuplehash (map hash xs) <> None ->
  tuplehash (map hash ys) <> None ->
  map hash xs = map hash ys.
Proof.
  induction xs as [|x xs IH]; intros [|y ys] HP Hfree Heq Hx Hy;
    simpl in *; try done.
  apply List.Forall_cons_iff in HP as [Hhead HP].
  apply andb_true_iff in Hfree as [Hf Hfree].
  destruct (py_eq x y) as [[|]|] eqn:He; try done.
  rewrite tuplehash_none in Hx, Hy. simpl in Hx, Hy.
  f_equal.
  - apply Hhead; auto.
  - apply IH; auto; rewrite tuplehash_none; auto.
Qed.

(** Apart from mappings, [hash] agrees with [==]: two equal hashable values
    without a mapping inside have the same hash. *)
Lemma hash_respects_eq_without_mappings a : forall b,
  mapping_free a = true ->
  py_eq a b = Ok true ->
  hash a <> None -> hash b <> None ->
  hash a = hash b.
Proof.
  induction a as [n|s|t|xs IH|xs _|xs IH|kvs _|kvs _] using value_nested_ind;
    intros b Hfree Heq Ha Hb; rewrite py_eq_unfold in Heq;
    destruct b; simpl in *; try done.
  - injection Heq as Heq. by apply Z.eqb_eq in Heq as ->.
  - injection Heq as Heq. by apply String.eqb_eq in Heq as ->.
  - injection Heq as Heq. by apply type_tag_eqb_eq in Heq as ->.
  - f_equal. by apply (hash_seq_respects_eq xs).
  - destruct (_ =? _)%nat; [|done]. f_equal. by apply (hash_seq_respects_eq xs).
Qed.
End hash_and_equality.

(** Two known values of the tuple hash. *)
Example hash_empty_tuple :
  forall sh th, py_hash sh th (VTuple []) = Some 5740354900026072187.
Proof. reflexivity. Qed.

Example hash_tuple_1_2 :
  forall sh th, py_hash sh th (VTuple [VInt 1; VInt 2]) = Some (-3550055125485641917).
Proof. intros. vm_compute. reflexivity. Qed.

Section container_claims.
Variable str_hash : string -> Z.
Variable type_hash : type_tag -> Z.
Variable base_method : base_kind -> string -> option method.

Local Abbreviation call := (call_method str_hash type_hash base_method).
Local Abbreviation hash := (py_hash str_hash type_hash).
Local Abbreviation py_eq := (py_eq str_hash type_hash).
Local Abbreviation wf := (wf str_hash type_hash).
Local Abbreviation construct_run := (construct_run str_hash type_hash).
Local Abbreviation construct := (construct str_hash type_hash).









(** C4 at a failing input: the mappings built from {1: 2, 3: 4} and from
    {3: 4, 1: 2} are equal, in both directions, and their hashes differ. *)
Theorem equal_dicts_hash_differently :
  let c1 := VImmDict [(VInt 1, VInt 2); (VInt 3, VInt 4)] in
  let c2 := VImmDict [(VInt 3, VInt 4); (VInt 1, VInt 2)] in
  construct T_immutable_dict [VDict [(VInt 1, VInt 2); (VInt 3, VInt 4)]] = Ok c1 /\
  construct T_immutable_dict [VDict [(VInt 3, VInt 4); (VInt 1, VInt 2)]] = Ok c2 /\
  py_eq c1 c2 = Ok true /\ py_eq c2 c1 = Ok true /\
  hash c1 = Some (-1467267874458550984) /\
  hash c2 = Some (-317885380452362864) /\
  hash c1 <> hash c2.
Proof.
  intros c1 c2.
  assert (hash c1 = Some (-1467267874458550984)) as H1 by (vm_compute; reflexivity).
  assert (hash c2 = Some (-317885380452362864)) as H2 by (vm_compute; reflexivity).
  split; [vm_compute; reflexivity|]. split; [vm_compute; reflexivity|].
  split; [vm_compute; reflexivity|]. split; [vm_compute; reflexivity|].
  split; [exact H1|]. split; [exact H2|].
  rewrite H1, H2. discriminate.
Qed.

(** The same two mappings inside an immutable_list: the lists are equal and
    hash differently too. *)
Lemma lists_of_equal_dicts_hash_differently :
  let c1 := VImmDict [(VInt 1, VInt 2); (VInt 3, VInt 4)] in
  let c2 := VImmDict [(VInt 3, VInt 4); (VInt 1, VInt 2)] in
  py_eq (VImmList [c1]) (VImmList [c2]) = Ok true /\
  hash (VImmList [c1]) <> hash (VImmList [c2]).
Proof.
  intros c1 c2. split; [vm_compute; reflexivity|].
  vm_compute. discriminate.
Qed.

End container_claims.

(** ** The registered adapter functions *)

Section adapter_claims.
Variable str_hash : string -> Z.
Variable type_hash : type_tag -> Z.

Local Abbreviation hash := (py_hash str_hash type_hash).
Local Abbreviation py_eq := (py_eq str_hash type_hash).
Local Abbreviation same_key := (same_key str_hash type_hash).
Local Abbreviation keys_unique := (keys_unique str_hash type_hash).
Local Abbreviation wf := (wf str_hash type_hash).
Local Abbreviation construct := (construct str_hash type_hash).
Local Abbreviation registered := (registered str_hash type_hash).
Local Abbreviation module_load := (module_load str_hash type_hash).
Local Abbreviation _immutable_list_unflatten :=
  (_immutable_list_unflatten str_hash type_hash).
Local Abbreviation _immutable_dict_unflatten :=
  (_immutable_dict_unflatten str_hash type_hash).

Lemma registered_immutable_list :
  registered T_immutable_list
  = Some {| reg_type := T_immutable_list;
            flatten_fn := _immutable_list_flatten;
            unflatten_fn := _immutable_list_unflatten;
            serialized_type_name := "torch.fx.immutable_collections.immutable_list";
            flatten_with_keys_fn := _list_flatten_with_keys |}.
Proof. reflexivity. Qed.

Lemma registered_immutable_dict :
  registered T_immutable_dict
  = Some {| reg_type := T_immutable_dict;
            flatten_fn := _immutable_dict_flatten;
            unflatten_fn := _immutable_dict_unflatten;
            serialized_type_name := "torch.fx.immutable_collections.immutable_dict";
            flatten_with_keys_fn := _dict_flatten_with_keys |}.
Proof. reflexivity. Qed.

Lemma combine_fst_snd_items (kvs : list (value * value)) :
  combine (map fst kvs) (map snd kvs) = kvs.
Proof. induction kvs as [|[k v] rest IH]; simpl; congruence. Qed.

Lemma enumerate_from_leaves xs : forall i, map snd (enumerate_from i xs) = xs.
Proof. induction xs as [|x xs IH]; intros i; simpl; [done|]. by rewrite IH. Qed.

Lemma enumerate_from_token xs : forall i n tok leaf,
  nth_error (enumerate_from i xs) n = Some (tok, leaf) ->
  tok = VInt (i + Z.of_nat n) /\ nth_error xs n = Some leaf.
Proof.
  induction xs as [|x xs IH]; intros i [|n] tok leaf; simpl; try discriminate.
  - intros [= <- <-]. split; [f_equal; lia | done].
  - intros H. apply IH in H as [-> H]. split; [f_equal; lia | done].
Qed.

(** Rebuilding the immutable mapping from the keys and values of a
    well-formed item table gives the table back. *)
Lemma unflatten_own_items kvs :
  wf (VImmDict kvs) = true ->
  _immutable_dict_unflatten (map snd kvs) (keys_context (map fst kvs))
  = Ok (VImmDict kvs).
Proof.
  intros Hwf. destruct (wf_items_parts _ _ _ Hwf) as [Hh Hu].
  unfold _immutable_dict_unflatten, _dict_unflatten.
  rewrite combine_fst_snd_items, dict_merge_items_own by done.
  cbn [mbind outcome_bind]. rewrite construct_immutable_dict.
  cbn [builtin_init dict_init mbind outcome_bind].
  by rewrite dict_merge_items_own.
Qed.


(** C6: the children that the registered flatten_with_keys function returns,
    with their keypath tokens dropped, are the children that the registered
    flatten function returns, in the same order; the token of the n-th child
    of an immutable_list is the number n, and the token of a child of an
    immutable_dict is the key it is stored under. *)
Theorem flatten_with_keys_agrees_with_flatten :
  (forall xs, exists r keyed,
      registered T_immutable_list = Some r /\
      flatten_with_keys_fn r (VImmList xs)
      = Ok (keyed, length_context (length xs)) /\
      flatten_fn r (VImmList xs) = Ok (map snd keyed, length_context (length xs)) /\
      map snd keyed = xs /\
      length keyed = length xs /\
      (forall n tok leaf,
          nth_error keyed n = Some (tok, leaf) ->
          tok = VInt (Z.of_nat n) /\ nth_error xs n = Some leaf)) /\
  (forall kvs, exists r keyed,
      registered T_immutable_dict = Some r /\
      flatten_with_keys_fn r (VImmDict kvs)
      = Ok (keyed, keys_context (map fst kvs)) /\
      flatten_fn r (VImmDict kvs) = Ok (map snd keyed, keys_context (map fst kvs)) /\
      keyed = kvs).
Proof.
  split.
  - intros xs. eexists _, (enumerate_from 0 xs).
    split; [apply registered_immutable_list|]. simpl.
    rewrite enumerate_from_leaves.
    split; [done|]. split; [done|]. split; [done|].
    split; [by rewrite <- (enumerate_from_leaves xs 0) at 2; rewrite length_map|].
    intros n tok leaf H. by apply enumerate_from_token in H.
  - intros kvs. eexists _, kvs.
    split; [apply registered_immutable_dict|]. done.
Qed.

(** Two different strings are different keys, whatever their hashes. *)
Lemma same_key_str s t :
  s <> t -> same_key (VStr s) (VStr t) = Ok false.
Proof.
  intros Hne. unfold same_key, key_matches. cbn [py_hash].
  destruct (_ =? _); [|done].
  rewrite py_eq_unfold. cbn [builtin_eq]. by apply String.eqb_neq in Hne as ->.
Qed.

Lemma wf_str_keyed_pair s t x y :
  s <> t -> wf (VDict [(VStr s, VInt x); (VStr t, VInt y)]) = true.
Proof.
  intros Hne. cbn [wf forallb hashable andb keys_unique fst].
  rewrite same_key_str by done. done.
Qed.

(** C7: for the immutable mapping built from {"a": 1, "b": 2}, the
    registered flatten returns the children [1, 2] with the context
    ["a", "b"], the registered flatten_with_keys returns
    [("a", 1), ("b", 2)], and the registered unflatten of [10, 20] with the
    context ["a", "b"] returns an immutable mapping equal to
    {"a": 10, "b": 20}. *)
Theorem mapping_example :
  exists c r y,
    construct T_immutable_dict [VDict [(VStr "a", VInt 1); (VStr "b", VInt 2)]] = Ok c /\
    registered T_immutable_dict = Some r /\
    flatten_fn r c = Ok ([VInt 1; VInt 2], keys_context [VStr "a"; VStr "b"]) /\
    flatten_with_keys_fn r c
    = Ok ([(VStr "a", VInt 1); (VStr "b", VInt 2)], keys_context [VStr "a"; VStr "b"]) /\
    unflatten_fn r [VInt 10; VInt 20] (keys_context [VStr "a"; VStr "b"]) = Ok y /\
    type_of y = T_immutable_dict /\
    py_eq y (VDict [(VStr "a", VInt 10); (VStr "b", VInt 20)]) = Ok true /\
    py_eq (VDict [(VStr "a", VInt 10); (VStr "b", VInt 20)]) y = Ok true.
Proof.
  assert ("b" <> "a")%string as Hne by discriminate.
  assert (forall x y, wf (VDict [(VStr "a", VInt x); (VStr "b", VInt y)]) = true)
    as Hwf by (intros; by apply wf_str_keyed_pair).
  eexists (VImmDict [(VStr "a", VInt 1); (VStr "b", VInt 2)]), _,
          (VImmDict [(VStr "a", VInt 10); (VStr "b", VInt 20)]).
  split.
  { rewrite construct_immutable_dict.
    cbn [builtin_init dict_init mbind outcome_bind].
    destruct (wf_items_parts _ _ _ (Hwf 1 2)) as [Hh Hu].
    by rewrite dict_merge_items_own. }
  split; [apply registered_immutable_dict|].
  split; [reflexivity|]. split; [reflexivity|].
  split; [exact (unflatten_own_items _ (Hwf 10 20))|].
  split; [reflexivity|].
  split.
  - rewrite py_eq_immutable_dict_l. apply py_eq_refl, Hwf.
  - rewrite py_eq_immutable_dict_r. apply py_eq_refl, Hwf.
Qed.

(** C8: the names passed at registration are the two string constants of
    the module, whatever registry the module is loaded into, and the name
    registered for immutable_list differs from the one registered for
    immutable_dict. *)
Theorem serialized_type_names_fixed_and_distinct :
  (forall registry,
      map serialized_type_name (module_load registry)
      = map serialized_type_name registry
        ++ ["torch.fx.immutable_collections.immutable_list";
            "torch.fx.immutable_collections.immutable_dict"]) /\
  (exists rl rd,
      registered T_immutable_list = Some rl /\
      registered T_immutable_dict = Some rd /\
      serialized_type_name rl = "torch.fx.immutable_collections.immutable_list" /\
      serialized_type_name rd = "torch.fx.immutable_collections.immutable_dict" /\
      serialized_type_name rl <> serialized_type_name rd).
Proof.
  split.
  - intros registry. unfold module_load, register_pytree_node.
    rewrite !map_app, <- app_assoc. done.
  - eexists _, _.
    split; [apply registered_immutable_list|].
    split; [apply registered_immutable_dict|].
    simpl. repeat split. discriminate.
Qed.

Lemma wf_iter src elems :
  wf src = true -> py_iter src = Ok elems -> forallb wf elems = true.
Proof.
  destruct src as [n|s|t|xs|xs|kvs|xs|kvs]; simpl; intros Hw [= <-]; try done.
  - by induction (list_ascii_of_string s).
  - apply andb_true_iff in Hw as [Hw _]. rewrite forallb_forall in *.
    intros k ([k' v] & <- & Hin)%in_map_iff. specialize (Hw _ Hin). simpl in *.
    by apply andb_true_iff in Hw as [[? _]%andb_true_iff _].
  - apply andb_true_iff in Hw as [Hw _]. rewrite forallb_forall in *.
    intros k ([k' v] & <- & Hin)%in_map_iff. specialize (Hw _ Hin). simpl in *.
    by apply andb_true_iff in Hw as [[? _]%andb_true_iff _].
Qed.

Lemma seq_eq_same xs : forallb wf xs = true -> seq_eq py_eq xs xs = Ok true.
Proof.
  intros H. apply seq_eq_refl; [|done].
  apply List.Forall_forall. intros x _. apply py_eq_refl.
Qed.

(** C9: the immutable sequence built from an iterable is equal, in both
    directions, to the plain list of the same elements, and the immutable
    mapping built from a mapping is equal, in both directions, to the plain
    dict of the same items: neither class binds [__eq__], [__new__] or
    [__init__], so construction and equality are the inherited ones. *)
Theorem immutable_equals_plain_counterpart :
  (forall src elems,
      wf src = true ->
      py_iter src = Ok elems ->
      exists c,
        construct T_immutable_list [src] = Ok c /\
        construct T_list [src] = Ok (VList elems) /\
        type_of c = T_immutable_list /\
        py_eq c (VList elems) = Ok true /\ py_eq (VList elems) c = Ok true) /\
  (forall kvs,
      wf (VDict kvs) = true ->
      exists c,
        construct T_immutable_dict [VDict kvs] = Ok c /\
        construct T_dict [VDict kvs] = Ok (VDict kvs) /\
        type_of c = T_immutable_dict /\
        py_eq c (VDict kvs) = Ok true /\ py_eq (VDict kvs) c = Ok true).
Proof.
  split.
  - intros src elems Hwf Hit. exists (VImmList elems).
    assert (wf (VList elems) = true) as Hwl by exact (wf_iter _ _ Hwf Hit).
    pose proof (py_eq_refl _ _ _ Hwl) as Hrefl.
    rewrite construct_immutable_list, construct_list.
    cbn [builtin_init list_init]. rewrite Hit. cbn [mbind outcome_bind].
    split; [reflexivity|]. split; [reflexivity|]. split; [reflexivity|].
    by rewrite py_eq_immutable_list_l, py_eq_immutable_list_r.
  - intros kvs Hwf. exists (VImmDict kvs).
    pose proof (py_eq_refl _ _ _ Hwf) as Hrefl.
    destruct (wf_items_parts _ _ kvs Hwf) as [Hh Hu].
    rewrite construct_immutable_dict, construct_dict.
    cbn [builtin_init dict_init]. rewrite dict_merge_items_own by done.
    cbn [mbind outcome_bind].
    split; [reflexivity|]. split; [reflexivity|]. split; [reflexivity|].
    by rewrite py_eq_immutable_dict_l, py_eq_immutable_dict_r.
Qed.
End adapter_claims.

(** ** The statements at concrete instances *)

(** The two sample keys are equal and hash differently, so a mapping holds
    both: built from the two pairs it has two items. *)
Lemma equal_keys_are_two_keys :
  py_eq sample_str_hash sample_type_hash sample_key_1 sample_key_2 = Ok true /\
  same_key sample_str_hash sample_type_hash sample_key_2 sample_key_1 = Ok false /\
  construct sample_str_hash sample_type_hash T_immutable_dict
    [VList [VTuple [sample_key_1; VInt 10]; VTuple [sample_key_2; VInt 20]]]
  = Ok sample_dict_of_equal_keys /\
  wf sample_str_hash sample_type_hash sample_dict_of_equal_keys = true.
Proof.
  split; [vm_compute; reflexivity|]. split; [vm_compute; reflexivity|].
  split; vm_compute; reflexivity.
Qed.


(** The base list does concatenate in place; the immutable class never
    reaches that method. *)
Lemma plain_list_iadd_mutates :
  call_method sample_str_hash sample_type_hash sample_base_method
    (VList [VInt 1]) "__iadd__" [VTuple [VInt 4]] []
  = (Ok (VList [VInt 1; VInt 4]), VList [VInt 1; VInt 4]).
Proof. reflexivity. Qed.






Lemma immutable_equals_plain_counterpart_witness :
  (wf sample_str_hash sample_type_hash (VTuple [VInt 1; VStr "x"]) = true /\
   py_iter (VTuple [VInt 1; VStr "x"]) = Ok [VInt 1; VStr "x"] /\
   exists c,
     construct sample_str_hash sample_type_hash
       T_immutable_list [VTuple [VInt 1; VStr "x"]] = Ok c /\
     construct sample_str_hash sample_type_hash
       T_list [VTuple [VInt 1; VStr "x"]] = Ok (VList [VInt 1; VStr "x"]) /\
     type_of c = T_immutable_list /\
     py_eq sample_str_hash sample_type_hash c (VList [VInt 1; VStr "x"]) = Ok true /\
     py_eq sample_str_hash sample_type_hash (VList [VInt 1; VStr "x"]) c = Ok true) /\
  (wf sample_str_hash sample_type_hash
     (VDict [(VStr "a", VInt 1); (VInt 2, VList [])]) = true /\
   exists c,
     construct sample_str_hash sample_type_hash
       T_immutable_dict [VDict [(VStr "a", VInt 1); (VInt 2, VList [])]] = Ok c /\
     construct sample_str_hash sample_type_hash
       T_dict [VDict [(VStr "a", VInt 1); (VInt 2, VList [])]]
     = Ok (VDict [(VStr "a", VInt 1); (VInt 2, VList [])]) /\
     type_of c = T_immutable_dict /\
     py_eq sample_str_hash sample_type_hash
       c (VDict [(VStr "a", VInt 1); (VInt 2, VList [])]) = Ok true /\
     py_eq sample_str_hash sample_type_hash
       (VDict [(VStr "a", VInt 1); (VInt 2, VList [])]) c = Ok true).
Proof.
  split.
  - split; [reflexivity|]. split; [reflexivity|].
    apply (proj1 (immutable_equals_plain_counterpart sample_str_hash sample_type_hash)
             (VTuple [VInt 1; VStr "x"]) [VInt 1; VStr "x"]); reflexivity.
  - assert (wf sample_str_hash sample_type_hash
              (VDict [(VStr "a", VInt 1); (VInt 2, VList [])]) = true)
      as Hwf by (vm_compute; reflexivity).
    split; [exact Hwf|].
    apply (proj2 (immutable_equals_plain_counterpart sample_str_hash sample_type_hash)
             [(VStr "a", VInt 1); (VInt 2, VList [])] Hwf).
Defined.

(** ** More on the two classes *)

Section class_namespaces.
Variable str_hash : string -> Z.
Variable type_hash : type_tag -> Z.
Variable base_method : base_kind -> string -> option method.

Local Abbreviation immutable_list := (immutable_list str_hash type_hash).
Local Abbreviation immutable_dict := (immutable_dict str_hash type_hash).
Local Abbreviation call := (call_method str_hash type_hash base_method).

Lemma factory_namespace_at base names f g (m : string) :
  cls_namespace
    (compatibility true
       (_create_immutable_container_class base names
          (Some (<["__reduce__" := f]> (<["__hash__" := g]> ∅))))) !! m
  = if decide (m ∈ names) then Some _no_mutation
    else if decide (m = "__hash__") then Some g
    else if decide (m = "__reduce__") then Some f
    else if decide (m ∈ implicit_attributes) then Some attribute_not_callable
    else None.
Proof.
  unfold compatibility.
  destruct (decide (m ∈ names)) as [Hin|Hout].
  { apply factory_blocks. by apply list_elem_of_In. }
  rewrite list_elem_of_In in Hout.
  destruct (decide (m = "__hash__")) as [->|Hh].
  { apply factory_keeps; [done|]. simpl default.
    rewrite lookup_insert_ne by done. apply lookup_insert_eq. }
  destruct (decide (m = "__reduce__")) as [->|Hr].
  { apply factory_keeps; [done|]. simpl default. apply lookup_insert_eq. }
  assert (default (∅ : gmap string method)
            (Some (<["__reduce__" := f]> (<["__hash__" := g]> ∅))) !! m
          = None) as Hnone.
  { simpl default. rewrite !lookup_insert_ne by done. apply lookup_empty. }
  destruct (decide (m ∈ implicit_attributes)) as [Himp|Himp].
  - apply factory_implicit; try done. by apply list_elem_of_In.
  - apply factory_unbound; try done. by rewrite <- list_elem_of_In.
Qed.

(** X1: the two classes are named immutable_list and immutable_dict and
    have the bases list and dict; the namespace of each binds every name of
    its tuple of mutable functions to [_no_mutation], [__hash__] and
    [__reduce__] to its two own functions, the four attributes every class
    made by [type] gets ([__module__], [__dict__], [__weakref__],
    [__doc__]) to something that cannot be called, and no other name. *)
Theorem class_namespaces_characterised (m : string) :
  (cls_name immutable_list = "immutable_list" /\
   cls_base immutable_list = base_list /\
   cls_namespace immutable_list !! m
   = if decide (m ∈ immutable_list_mutable_functions) then Some _no_mutation
     else if decide (m = "__hash__")
          then Some (immutable_list___hash__ str_hash type_hash)
     else if decide (m = "__reduce__") then Some immutable_list___reduce__
     else if decide (m ∈ implicit_attributes) then Some attribute_not_callable
     else None) /\
  (cls_name immutable_dict = "immutable_dict" /\
   cls_base immutable_dict = base_dict /\
   cls_namespace immutable_dict !! m
   = if decide (m ∈ immutable_dict_mutable_functions) then Some _no_mutation
     else if decide (m = "__hash__")
          then Some (immutable_dict___hash__ str_hash type_hash)
     else if decide (m = "__reduce__") then Some immutable_dict___reduce__
     else if decide (m ∈ implicit_attributes) then Some attribute_not_callable
     else None).
Proof.
  split; (split; [reflexivity|]); (split; [reflexivity|]);
    apply factory_namespace_at.
Qed.

End class_namespaces.


(** * The runner determinator script: properties *)

Module RunnerFacts.
Import Runner.

(** ** Splitting and stripping *)

Lemma append_cons c (s t : string) : (String c s ++ t)%string = String c (s ++ t)%string.
Proof. reflexivity. Qed.

Lemma append_nil_l (t : string) : ("" ++ t)%string = t.
Proof. reflexivity. Qed.

Ltac unfold_append := rewrite ?append_cons, ?append_nil_l in *.

Lemma append_nil_r (s : string) : (s ++ "")%string = s.
Proof. induction s as [|c s IH]; unfold_append; [done|]. by rewrite IH. Qed.

Lemma append_assoc (s t u : string) : ((s ++ t) ++ u)%string = (s ++ t ++ u)%string.
Proof. induction s as [|c s IH]; unfold_append; [done|]. by rewrite IH. Qed.

Lemma all_chars_app p s t :
  all_chars p (s ++ t) = all_chars p s && all_chars p t.
Proof.
  induction s as [|c s IH]; unfold_append; simpl; [done|].
  by rewrite IH, andb_assoc.
Qed.

(** A field without the separator is the only field of its split. *)
Lemma split_char_free sep s :
  all_chars (fun c => negb (Ascii.eqb c sep)) s = true ->
  split_char sep s = [s].
Proof.
  induction s as [|c s IH]; simpl; [done|].
  intros [Hc Hs]%andb_true_iff. apply negb_true_iff in Hc.
  by rewrite Hc, IH.
Qed.

(** A separator after a field without it ends the field. *)
Lemma split_char_app sep s rest :
  all_chars (fun c => negb (Ascii.eqb c sep)) s = true ->
  split_char sep (s ++ String sep rest) = s :: split_char sep rest.
Proof.
  induction s as [|c s IH]; unfold_append; simpl.
  - intros _. by rewrite Ascii.eqb_refl.
  - intros [Hc Hs]%andb_true_iff. apply negb_true_iff in Hc.
    by rewrite Hc, IH.
Qed.

Lemma split_char_nonempty sep s : split_char sep s <> [].
Proof.
  destruct s as [|c s]; simpl; [done|].
  destruct (Ascii.eqb c sep); [done|]. by destruct (split_char sep s).
Qed.

(** The first field has no separator, and the text is the first field alone
    or the first field, a separator and the remainder. *)
Lemma split_char_first sep s :
  exists fields,
    split_char sep s = first_field (split_char sep s) :: fields /\
    all_chars (fun c => negb (Ascii.eqb c sep)) (first_field (split_char sep s)) = true /\
    ((s = first_field (split_char sep s) /\ fields = []) \/
     exists rest, s = (first_field (split_char sep s) ++ String sep rest)%string /\
                  fields = split_char sep rest).
Proof.
  induction s as [|c s (fields & Hsplit & Hfree & Hshape)]; simpl.
  - exists []. split; [done|]. split; [done|]. by left.
  - destruct (Ascii.eqb c sep) eqn:Hc.
    + apply Ascii.eqb_eq in Hc as ->. exists (split_char sep s).
      split; [done|]. split; [done|]. right. by exists s.
    + rewrite Hsplit. simpl. exists fields. split; [done|].
      split; [by rewrite Hc|].
      destruct Hshape as [[Hs ->]|(rest & Hs & ->)].
      * left. split; [by rewrite <- Hs | done].
      * right. exists rest. split; [|done].
        rewrite append_cons. by rewrite <- Hs.
Qed.

(** Joining fields without the separator and splitting again gives the
    fields back. *)
Lemma split_char_join sep field fields :
  forallb (all_chars (fun c => negb (Ascii.eqb c sep))) (field :: fields) = true ->
  split_char sep (join (String sep EmptyString) (field :: fields)) = field :: fields.
Proof.
  revert field. induction fields as [|f fields IH]; intros field Hfree.
  - simpl in *. apply split_char_free. by apply andb_true_iff in Hfree as [? _].
  - change (join (String sep "") (field :: f :: fields))
      with (field ++ String sep (join (String sep "") (f :: fields)))%string.
    apply andb_true_iff in Hfree as [Hfield Hfree].
    rewrite split_char_app by done. by rewrite IH.
Qed.

Lemma lstrip_blank chars s :
  all_chars (fun c => char_in c chars) s = true -> lstrip chars s = "".
Proof.
  induction s as [|c s IH]; simpl; [done|].
  intros [Hc Hs]%andb_true_iff. rewrite Hc. by apply IH.
Qed.

Lemma lstrip_app_blank chars pre s :
  all_chars (fun c => char_in c chars) pre = true ->
  lstrip chars (pre ++ s) = lstrip chars s.
Proof.
  induction pre as [|c pre IH]; unfold_append; simpl; [done|].
  intros [Hc Hs]%andb_true_iff. rewrite Hc. by apply IH.
Qed.

(** Stripping on the right keeps a first character that is not stripped. *)
Lemma rstrip_keeps_first chars c s :
  char_in c chars = false ->
  exists kept, rstrip chars (String c s) = String c kept.
Proof.
  intros Hc. simpl. destruct (rstrip chars s) as [|c' kept].
  - rewrite Hc. by exists "".
  - by exists (String c' kept).
Qed.

Lemma rstrip_free chars s :
  all_chars (fun c => negb (char_in c chars)) s = true -> rstrip chars s = s.
Proof.
  induction s as [|c s IH]; simpl; [done|].
  intros [Hc Hs]%andb_true_iff. apply negb_true_iff in Hc.
  rewrite IH by done. destruct s; [by rewrite Hc | done].
Qed.

Lemma rstrip_app chars a b :
  b <> "" -> rstrip chars b = b -> rstrip chars (a ++ b) = (a ++ b)%string.
Proof.
  intros Hne Hb. induction a as [|c a IH]; unfold_append; [done|].
  simpl. rewrite IH. destruct (a ++ b)%string eqn:E; [|done].
  destruct a; unfold_append; [by subst | done].
Qed.

(** The first character of a stripped text that, after characters to strip,
    goes on with a character that is not stripped. *)
Lemma first_char_strip chars pre c rest :
  all_chars (fun c => char_in c chars) pre = true ->
  char_in c chars = false ->
  first_char (strip chars (pre ++ String c rest)) = Returned c.
Proof.
  intros Hpre Hc. unfold strip. rewrite lstrip_app_blank by done.
  simpl lstrip. rewrite Hc.
  by destruct (rstrip_keeps_first chars c rest Hc) as [kept ->].
Qed.

(** ** Exception branches *)

(** X3: a branch is an exception branch exactly when it is one of main,
    nightly, release and landchecks, or one of them followed by a slash and
    anything. *)
Theorem exception_branch_iff branch :
  is_exception_branch branch = true <->
  exists head,
    head ∈ ["main"; "nightly"; "release"; "landchecks"] /\
    (branch = head \/ exists rest, branch = (head ++ "/" ++ rest)%string).
Proof.
  unfold is_exception_branch. rewrite bool_decide_eq_true.
  rewrite !elem_of_union, !elem_of_singleton. split.
  - intros Hhead. exists (first_field (split_char "/" branch)). split.
    + rewrite !elem_of_cons. tauto.
    + destruct (split_char_first "/" branch) as (fields & _ & _ & [[H _]|(rest & H & _)]).
      * by left.
      * right. by exists rest.
  - intros (head & Hin & Hshape).
    assert (all_chars (fun c => negb (Ascii.eqb c "/")) head = true) as Hfree.
    { rewrite !elem_of_cons, elem_of_nil in Hin.
      destruct Hin as [->|[->|[->|[->|[]]]]]; reflexivity. }
    assert (first_field (split_char "/" branch) = head) as ->.
    { destruct Hshape as [->|(rest & ->)].
      - by rewrite split_char_free.
      - unfold_append. by rewrite split_char_app. }
    rewrite !elem_of_cons, elem_of_nil in Hin. tauto.
Qed.

(** ** Reading the first comment *)

Lemma all_chars_impl (p q : ascii -> bool) s :
  (forall c, p c = true -> q c = true) ->
  all_chars p s = true -> all_chars q s = true.
Proof.
  intros Hpq. induction s as [|c s IH]; simpl; [done|].
  intros [Hc Hs]%andb_true_iff. by rewrite (Hpq c Hc), IH.
Qed.

Lemma comment_blank_is_space c :
  char_in c comment_blanks = true -> is_space c = true.
Proof.
  unfold char_in, comment_blanks. simpl.
  rewrite !orb_true_iff, !Ascii.eqb_eq. intros [->|[->|[->|?]]]; done.
Qed.

Lemma not_space_not_comment_blank c :
  is_space c = false -> char_in c comment_blanks = false.
Proof.
  intros Hc. destruct (char_in c comment_blanks) eqn:E; [|done].
  apply comment_blank_is_space in E. congruence.
Qed.

(** Some requestor is in the set of opted-in users. *)
Lemma some_requestor_opted_in (users : gset string) (requestors : list string) :
  bool_decide (list_to_set (filter (fun usr => usr ∈ users) requestors)
               <> (∅ : gset string)) = true
  <-> exists usr, usr ∈ requestors /\ usr ∈ users.
Proof.
  rewrite bool_decide_eq_true. split.
  - intros [usr Husr]%set_choose_L.
    apply elem_of_list_to_set, list_elem_of_filter in Husr as [? ?]. eauto.
  - intros (usr & Hin & Hu) Hempty.
    assert (usr ∈ (list_to_set (filter (fun usr => usr ∈ users) requestors)
                   : gset string)) as Hmem.
    { apply elem_of_list_to_set, list_elem_of_filter. by split. }
    rewrite Hempty in Hmem. by apply not_elem_of_empty in Hmem.
Qed.

(** X4: the label type is the empty label of the meta runners or "lf.",
    and the opt-in choice is the feature or the fallback, whatever the
    issue answers and whoever asks. *)
Theorem workflow_type_and_feature_range issue requestors feature fallback :
  (get_workflow_type issue requestors = WORKFLOW_LABEL_META \/
   get_workflow_type issue requestors = WORKFLOW_LABEL_LF) /\
  (get_optin_feature issue requestors feature fallback = feature \/
   get_optin_feature issue requestors feature fallback = fallback).
Proof.
  unfold get_workflow_type, get_optin_feature.
  destruct (first_comment_body issue) as [body|e]; simpl; [|by auto].
  split.
  - destruct (first_char (strip comment_blanks body)) as [c|e]; simpl; [|by auto].
    destruct (Ascii.eqb c "!"); [by auto|].
    destruct (Ascii.eqb c "*"); [by auto|].
    destruct (bool_decide _); auto.
  - destruct (bool_decide _); auto.
Qed.

(** X5: when the first comment cannot be read, or holds nothing but
    newlines, tabs and spaces, the label type is the one of the meta runners
    and the opt-in choice is the fallback. *)
Theorem unreadable_or_blank_comment_falls_back issue requestors feature fallback :
  (exists e, first_comment_body issue = Raised e) \/
  (exists body, first_comment_body issue = Returned body /\
                all_chars (fun c => char_in c comment_blanks) body = true) ->
  get_workflow_type issue requestors = WORKFLOW_LABEL_META /\
  get_optin_feature issue requestors feature fallback = fallback.
Proof.
  unfold get_workflow_type, get_optin_feature.
  intros [[e ->]|(body & -> & Hblank)]; simpl; [done|].
  unfold strip. rewrite lstrip_blank by done. simpl.
  split; [done|].
  destruct (bool_decide _) eqn:E; [|done].
  apply some_requestor_opted_in in E as (usr & _ & Hin).
  rewrite elements_empty in Hin. simpl in Hin. by apply not_elem_of_empty in Hin.
Qed.

(** X6: when the comment, after leading newlines, tabs and spaces, starts
    with "!" the label type is the one of the meta runners, and when it
    starts with "*" it is "lf.", whoever asks and whatever follows. *)
Theorem first_character_decides_for_everyone (blanks rest : string) requestors :
  all_chars (fun c => char_in c comment_blanks) blanks = true ->
  get_workflow_type {| first_comment_body := Returned (blanks ++ "!" ++ rest)%string |}
    requestors = WORKFLOW_LABEL_META /\
  get_workflow_type {| first_comment_body := Returned (blanks ++ "*" ++ rest)%string |}
    requestors = WORKFLOW_LABEL_LF.
Proof.
  intros Hblank. unfold get_workflow_type. simpl. unfold_append.
  rewrite !first_char_strip by done. done.
Qed.

(** ** The user list *)

(** A word without whitespace is the only word of its split. *)
Lemma split_whitespace_word w :
  w <> "" -> all_chars not_space w = true -> split_whitespace w = [w].
Proof.
  induction w as [|c w IH]; [done|]. intros _ [Hc Hw]%andb_true_iff.
  apply negb_true_iff in Hc. simpl. rewrite Hc.
  destruct w as [|c' w']; [done|].
  pose proof Hw as [Hc' _]%andb_true_iff. apply negb_true_iff in Hc'.
  rewrite Hc'. by rewrite IH.
Qed.

(** A whitespace character after a word ends the word. *)
Lemma split_whitespace_app w sp rest :
  w <> "" -> all_chars not_space w = true -> is_space sp = true ->
  split_whitespace (w ++ String sp rest) = w :: split_whitespace rest.
Proof.
  intros Hne Hw Hsp. induction w as [|c w IH]; [done|].
  apply andb_true_iff in Hw as [Hc Hw]. apply negb_true_iff in Hc.
  unfold_append. destruct w as [|c' w'].
  - unfold_append. simpl. by rewrite Hc, Hsp.
  - pose proof Hw as [Hc' _]%andb_true_iff. apply negb_true_iff in Hc'.
    specialize (IH ltac:(done) Hw). unfold_append.
    change (split_whitespace (String c (String c' (w' ++ String sp rest))))
      with (if is_space c then split_whitespace (String c' (w' ++ String sp rest))
            else if is_space c'
                 then String c "" :: split_whitespace (String c' (w' ++ String sp rest))
                 else match split_whitespace (String c' (w' ++ String sp rest)) with
                      | [] => [String c ""]
                      | word :: words => String c word :: words
                      end).
    by rewrite Hc, Hc', IH.
Qed.

(** Words written one per line are what splitting the text gives back. *)
Lemma split_whitespace_lines ws :
  Forall word_ok ws ->
  split_whitespace (join (String newline "") ws) = ws.
Proof.
  induction 1 as [|w ws [Hne Hw] Hws IH]; [done|].
  destruct ws as [|w' ws].
  - by apply split_whitespace_word.
  - change (join (String newline "") (w :: w' :: ws))
      with (w ++ String newline "" ++ join (String newline "") (w' :: ws))%string.
    unfold_append. rewrite split_whitespace_app by done. by rewrite IH.
Qed.

Lemma rstrip_cons chars c s :
  s <> "" -> rstrip chars s = s -> rstrip chars (String c s) = String c s.
Proof. intros Hne Hs. simpl. rewrite Hs. by destruct s. Qed.

Lemma rstrip_word w :
  all_chars not_space w = true -> rstrip comment_blanks w = w.
Proof.
  intros Hw. apply rstrip_free. revert Hw. apply all_chars_impl.
  intros c Hc. apply negb_true_iff in Hc. apply negb_true_iff.
  by apply not_space_not_comment_blank.
Qed.

Lemma rstrip_lines ws : forall w,
  Forall word_ok (w :: ws) ->
  rstrip comment_blanks (join (String newline "") (w :: ws))
  = join (String newline "") (w :: ws)
  /\ join (String newline "") (w :: ws) <> "".
Proof.
  induction ws as [|w' ws IH]; intros w Hws.
  - apply Forall_cons_1 in Hws as [[Hne Hw] _]. simpl.
    split; [by apply rstrip_word | done].
  - apply Forall_cons_1 in Hws as [[Hne Hw] Hws].
    destruct (IH w' Hws) as [IH1 IH2].
    change (join (String newline "") (w :: w' :: ws))
      with (w ++ String newline "" ++ join (String newline "") (w' :: ws))%string.
    unfold_append. split.
    + apply rstrip_app; [done|]. by apply rstrip_cons.
    + destruct w; [done|]. by unfold_append.
Qed.

(** Stripping a text of words, one per line, changes nothing. *)
Lemma strip_lines ws :
  Forall word_ok ws ->
  strip comment_blanks (join (String newline "") ws) = join (String newline "") ws.
Proof.
  intros Hws. unfold strip.
  assert (lstrip comment_blanks (join (String newline "") ws)
          = join (String newline "") ws) as ->.
  { destruct Hws as [|w ws [Hne Hw] Hws]; [done|].
    destruct w as [|c w]; [done|].
    apply andb_true_iff in Hw as [Hc _]. apply negb_true_iff in Hc.
    assert (exists tail, join (String newline "") (String c w :: ws) = String c tail)
      as [tail ->].
    { destruct ws; simpl; unfold_append; eauto. }
    simpl. by rewrite not_space_not_comment_blank. }
  destruct ws as [|w0 ws0]; [done|].
  by apply rstrip_lines.
Qed.

Lemma name_char_not_space c : name_char c = true -> not_space c = true.
Proof. unfold name_char. by intros [? _]%andb_true_iff. Qed.

Lemma name_char_not_comma c : name_char c = true -> not_comma c = true.
Proof.
  unfold name_char, not_comma, char_in. simpl.
  intros [_ H]%andb_true_iff. apply negb_true_iff in H. apply negb_true_iff.
  apply orb_false_iff in H as [_ H]. apply orb_false_iff in H as [_ H].
  by apply orb_false_iff in H as [H _].
Qed.

Lemma name_char_not_entry_blank c : name_char c = true -> not_entry_blank c = true.
Proof.
  unfold name_char, not_entry_blank. intros [Hs H]%andb_true_iff.
  apply negb_true_iff in Hs, H. apply negb_true_iff.
  unfold char_in in *. simpl in *.
  apply orb_false_iff in H as [_ H]. apply orb_false_iff in H as [Hat _].
  rewrite Hat. simpl.
  destruct (Ascii.eqb c newline) eqn:E1.
  { apply Ascii.eqb_eq in E1 as ->. done. }
  destruct (Ascii.eqb c tab) eqn:E2.
  { apply Ascii.eqb_eq in E2 as ->. done. }
  destruct (Ascii.eqb c " ") eqn:E3.
  { apply Ascii.eqb_eq in E3 as ->. done. }
  done.
Qed.

Lemma name_char_not_hash s :
  all_chars name_char (String "#" s) = false.
Proof. reflexivity. Qed.

(** The characters of the text of a valid entry. *)
Lemma entry_text_chars (p : ascii -> bool) (e : entry) :
  (forall c, name_char c = true -> p c = true) ->
  p ","%char = true ->
  valid_entry e = true ->
  all_chars p (entry_text e) = true.
Proof.
  intros Hname Hcomma [[_ Hu]%andb_true_iff Hfs]%andb_true_iff.
  unfold entry_text. rewrite all_chars_app.
  rewrite (all_chars_impl name_char p) by done. simpl.
  induction (features e) as [|f fs IH]; simpl in *; [done|].
  apply andb_true_iff in Hfs as [Hf Hfs].
  rewrite Hcomma, all_chars_app, (all_chars_impl name_char p) by done.
  by rewrite IH.
Qed.

Lemma entry_text_starts e :
  valid_entry e = true ->
  exists c tail, entry_text e = String c tail /\ name_char c = true.
Proof.
  intros [[Hne Hu]%andb_true_iff _]%andb_true_iff. unfold entry_text.
  destruct (user e) as [|c u]; [done|].
  apply andb_true_iff in Hu as [Hc _]. unfold_append. eauto.
Qed.

Lemma render_entry_shape e :
  render_entry e
  = if opted_out e then String "#" (String "@" (entry_text e))
    else String "@" (entry_text e).
Proof. unfold render_entry, entry_text. by destruct (opted_out e). Qed.

Lemma render_entry_word e : valid_entry e = true -> word_ok (render_entry e).
Proof.
  intros Hv. rewrite render_entry_shape. split; [by destruct (opted_out e)|].
  pose proof (entry_text_chars not_space e name_char_not_space eq_refl Hv) as H.
  destruct (opted_out e); simpl; by rewrite H.
Qed.

Lemma rendered_words es :
  forallb valid_entry es = true -> Forall word_ok (map render_entry es).
Proof.
  intros Hv. apply Forall_fmap, Forall_forall. intros e He.
  apply render_entry_word. rewrite forallb_forall in Hv.
  apply Hv. by apply list_elem_of_In.
Qed.

(** Stripping the text of an entry behind its "@" gives the text. *)
Lemma strip_entry_text e :
  valid_entry e = true ->
  strip entry_blanks (String "@" (entry_text e)) = entry_text e.
Proof.
  intros Hv. unfold strip.
  destruct (entry_text_starts e Hv) as (c & tail & Htext & Hc).
  pose proof (entry_text_chars not_entry_blank e name_char_not_entry_blank eq_refl Hv)
    as Hfree.
  change (lstrip entry_blanks (String "@" (entry_text e)))
    with (lstrip entry_blanks (entry_text e)).
  rewrite Htext in *. simpl lstrip.
  apply name_char_not_entry_blank, negb_true_iff in Hc. rewrite Hc.
  by apply rstrip_free.
Qed.

(** An entry that starts with "#" is left as it is. *)
Lemma strip_opted_out_entry e :
  valid_entry e = true ->
  strip entry_blanks (String "#" (String "@" (entry_text e)))
  = String "#" (String "@" (entry_text e)).
Proof.
  intros Hv. unfold strip.
  destruct (entry_text_starts e Hv) as (c & tail & Htext & Hc).
  pose proof (entry_text_chars not_entry_blank e name_char_not_entry_blank eq_refl Hv)
    as Hfree.
  change (lstrip entry_blanks (String "#" (String "@" (entry_text e))))
    with (String "#" (String "@" (entry_text e))).
  apply rstrip_cons; [done|]. apply rstrip_cons; [by rewrite Htext|].
  by apply rstrip_free.
Qed.

(** The fields of an entry text are the user and the features. *)
Lemma split_fields head fs :
  all_chars not_comma head = true ->
  forallb (all_chars name_char) fs = true ->
  split_char "," (head ++ render_features fs) = head :: fs.
Proof.
  revert head. induction fs as [|f fs IH]; intros head Hhead Hfs; simpl.
  - rewrite append_nil_r. by apply split_char_free.
  - apply andb_true_iff in Hfs as [Hf Hfs].
    rewrite split_char_app by done. f_equal. apply IH; [|done].
    revert Hf. apply all_chars_impl, name_char_not_comma.
Qed.

Lemma split_entry_text e :
  valid_entry e = true ->
  split_char "," (entry_text e) = user e :: features e.
Proof.
  intros [[_ Hu]%andb_true_iff Hfs]%andb_true_iff.
  apply split_fields; [|done].
  revert Hu. apply all_chars_impl, name_char_not_comma.
Qed.

Lemma split_opted_out_entry e :
  valid_entry e = true ->
  split_char "," (String "#" (String "@" (entry_text e)))
  = String "#" (String "@" (user e)) :: features e.
Proof.
  intros [[_ Hu]%andb_true_iff Hfs]%andb_true_iff.
  change (String "#" (String "@" (entry_text e)))
    with (String "#" (String "@" (user e)) ++ render_features (features e))%string.
  apply split_fields; [|done]. simpl.
  revert Hu. apply all_chars_impl, name_char_not_comma.
Qed.

(** The name [get_workflow_type] reads from an entry. *)
Lemma workflow_key e :
  valid_entry e = true ->
  first_field (split_char "," (strip entry_blanks (render_entry e)))
  = if opted_out e then String "#" (String "@" (user e)) else user e.
Proof.
  intros Hv. rewrite render_entry_shape. destruct (opted_out e).
  - by rewrite strip_opted_out_entry, split_opted_out_entry.
  - by rewrite strip_entry_text, split_entry_text.
Qed.

(** The text [get_optin_feature] reads from an entry. *)
Lemma feature_text e :
  valid_entry e = true ->
  strip entry_blanks (lstrip "#" (render_entry e)) = entry_text e.
Proof.
  intros Hv. rewrite render_entry_shape.
  destruct (opted_out e); by apply strip_entry_text.
Qed.

Lemma first_char_user_list e es :
  exists c, first_char (render_user_list (e :: es)) = Returned c /\
            (c = "#"%char \/ c = "@"%char).
Proof.
  unfold render_user_list. simpl map. rewrite render_entry_shape.
  destruct es as [|e' es]; simpl join; destruct (opted_out e); unfold_append;
    simpl; eauto.
Qed.

Lemma workflow_type_on_user_list e0 es0 requestors :
  forallb valid_entry (e0 :: es0) = true ->
  get_workflow_type
    {| first_comment_body := Returned (render_user_list (e0 :: es0)) |} requestors
  = if bool_decide
         (list_to_set
            (filter (fun usr => usr ∈ (list_to_set (map workflow_name (e0 :: es0))
                                       : gset string)) requestors)
          <> (∅ : gset string))
    then WORKFLOW_LABEL_LF else WORKFLOW_LABEL_META.
Proof.
  intros Hv. pose proof (rendered_words _ Hv) as Hwords.
  unfold get_workflow_type. cbn [first_comment_body]. simpl mbind.
  unfold render_user_list in *. rewrite strip_lines by done.
  destruct (first_char_user_list e0 es0) as (c & Hc & Hmark).
  unfold render_user_list in Hc. rewrite Hc.
  unfold mbind, attempt_bind.
  assert (Ascii.eqb c "!" = false /\ Ascii.eqb c "*" = false) as [-> ->].
  { by destruct Hmark as [->| ->]. }
  rewrite split_whitespace_lines by done.
  rewrite map_map.
  rewrite (map_ext_in _ workflow_name); [by destruct (bool_decide _)|].
  intros e He. apply workflow_key.
  rewrite forallb_forall in Hv. by apply Hv.
Qed.

(** X7: for a first comment that is a list of valid entries, one per line,
    and requestors whose names are made of name characters, the label type
    is "lf." exactly when some entry that is not opted out names a
    requestor, and the label of the meta runners otherwise. *)
Theorem user_list_workflow_type es requestors :
  forallb valid_entry es = true ->
  forallb (all_chars name_char) requestors = true ->
  let label :=
    get_workflow_type {| first_comment_body := Returned (render_user_list es) |}
      requestors in
  let listed :=
    exists e, e ∈ es /\ opted_out e = false /\ user e ∈ requestors in
  (listed -> label = WORKFLOW_LABEL_LF) /\
  (~ listed -> label = WORKFLOW_LABEL_META) /\
  (label = WORKFLOW_LABEL_LF -> listed).
Proof.
  intros Hv Hr label listed.
  destruct es as [|e0 es0].
  { assert (label = WORKFLOW_LABEL_META) as -> by reflexivity.
    split; [|split]; [|done|done].
    intros (e & He & _). by apply elem_of_nil in He. }
  assert (listed <->
          exists usr, usr ∈ requestors /\
                      usr ∈ (list_to_set (map workflow_name (e0 :: es0)) : gset string))
    as Hiff.
  { split.
    - intros (e & He & Hin & Hu). exists (user e). split; [done|].
      apply elem_of_list_to_set, list_elem_of_fmap. exists e. split; [|done].
      unfold workflow_name. by rewrite Hin.
    - intros (usr & Hu & Hkey).
      apply elem_of_list_to_set, list_elem_of_fmap in Hkey as (e & -> & He).
      exists e. split; [done|]. unfold workflow_name in *.
      destruct (opted_out e); [|done].
      rewrite forallb_forall in Hr. apply list_elem_of_In, Hr in Hu.
      by rewrite name_char_not_hash in Hu. }
  subst label. rewrite workflow_type_on_user_list by done.
  destruct (bool_decide _) eqn:E.
  - apply some_requestor_opted_in in E. split; [done|]. split; [|tauto].
    intros Hn. exfalso. tauto.
  - split; [|split]; [|done|done].
    intros Hl. apply Hiff, some_requestor_opted_in in Hl. congruence.
Qed.

(** The users [get_optin_feature] collects from a list of valid entries. *)
Lemma feature_users es feature (usr : string) :
  forallb valid_entry es = true ->
  usr ∈ (list_to_set
           (map (fun user => first_field (split_char "," user))
                (filter (fun user => feature ∈ split_char "," user)
                        (elements (list_to_set (map entry_text es) : gset string))))
         : gset string)
  <-> exists e, e ∈ es /\ usr = user e /\ feature ∈ user e :: features e.
Proof.
  intros Hv. rewrite forallb_forall in Hv.
  rewrite elem_of_list_to_set, list_elem_of_fmap. split.
  - intros (text & -> & Hin).
    apply list_elem_of_filter in Hin as [Hfeat Hin].
    apply elem_of_elements, elem_of_list_to_set, list_elem_of_fmap in Hin
      as (e & -> & He).
    assert (valid_entry e = true) as Hve by by apply Hv, list_elem_of_In.
    rewrite split_entry_text in * by done. by exists e.
  - intros (e & He & -> & Hfeat).
    assert (valid_entry e = true) as Hve by by apply Hv, list_elem_of_In.
    exists (entry_text e). rewrite split_entry_text by done. split; [done|].
    apply list_elem_of_filter. rewrite split_entry_text by done. split; [done|].
    apply elem_of_elements, elem_of_list_to_set, list_elem_of_fmap. by exists e.
Qed.

Lemma optin_feature_on_user_list es requestors feature fallback :
  forallb valid_entry es = true ->
  get_optin_feature
    {| first_comment_body := Returned (render_user_list es) |}
    requestors feature fallback
  = if bool_decide
         (list_to_set
            (filter
               (fun usr =>
                  usr ∈ (list_to_set
                           (map (fun user => first_field (split_char "," user))
                                (filter (fun user => feature ∈ split_char "," user)
                                        (elements (list_to_set (map entry_text es)
                                                   : gset string))))
                         : gset string))
               requestors)
          <> (∅ : gset string))
    then feature else fallback.
Proof.
  intros Hv. pose proof (rendered_words _ Hv) as Hwords.
  unfold get_optin_feature. cbn [first_comment_body]. simpl mbind.
  unfold render_user_list. rewrite strip_lines by done.
  rewrite split_whitespace_lines by done.
  rewrite map_map.
  rewrite (map_ext_in _ entry_text); [by destruct (bool_decide _)|].
  intros e He. apply feature_text.
  rewrite forallb_forall in Hv. by apply Hv.
Qed.

(** X8: for a first comment that is a list of valid entries, one per line,
    the opt-in choice is the feature exactly when some entry, opted out of
    the new runners or not, names a requestor and has the feature among its
    fields (the user name itself being the first field), and the fallback
    otherwise. *)
Theorem user_list_optin_feature es requestors feature fallback :
  forallb valid_entry es = true ->
  let choice :=
    get_optin_feature {| first_comment_body := Returned (render_user_list es) |}
      requestors feature fallback in
  let opted :=
    exists e, e ∈ es /\ user e ∈ requestors /\ feature ∈ user e :: features e in
  (opted -> choice = feature) /\
  (~ opted -> choice = fallback) /\
  (feature <> fallback -> choice = feature -> opted).
Proof.
  intros Hv choice opted.
  assert (opted <->
          exists usr, usr ∈ requestors /\
            usr ∈ (list_to_set
                     (map (fun user => first_field (split_char "," user))
                          (filter (fun user => feature ∈ split_char "," user)
                                  (elements (list_to_set (map entry_text es)
                                             : gset string))))
                   : gset string)) as Hiff.
  { split.
    - intros (e & He & Hu & Hf). exists (user e). split; [done|].
      apply feature_users; [done|]. by exists e.
    - intros (usr & Hu & Hin). apply feature_users in Hin as (e & He & -> & Hf); [|done].
      by exists e. }
  subst choice. rewrite optin_feature_on_user_list by done.
  destruct (bool_decide _) eqn:E.
  - apply some_requestor_opted_in in E. split; [done|]. split; [|tauto].
    intros Hn. exfalso. tauto.
  - split; [|split]; [|done|done].
    intros Ho. apply Hiff, some_requestor_opted_in in Ho. congruence.
Qed.

(** ** The author behind a ciflow tag *)

(** Joining the fields of a split with the separator gives the text back. *)
Lemma join_split_char sep s :
  join (String sep "") (split_char sep s) = s.
Proof.
  induction s as [|c s IH]; [done|]. simpl.
  destruct (Ascii.eqb c sep) eqn:Hc.
  - apply Ascii.eqb_eq in Hc as ->.
    destruct (split_char sep s) as [|f fs] eqn:E; [by apply split_char_nonempty in E|].
    change (join (String sep "") ("" :: f :: fs))
      with ("" ++ String sep "" ++ join (String sep "") (f :: fs))%string.
    unfold_append. by rewrite IH.
  - destruct (split_char sep s) as [|f fs] eqn:E; [by apply split_char_nonempty in E|].
    destruct fs as [|f' fs].
    + simpl in *. by rewrite IH.
    + change (join (String sep "") (String c f :: f' :: fs))
        with (String c f ++ String sep "" ++ join (String sep "") (f' :: fs))%string.
      change (join (String sep "") (f :: f' :: fs))
        with (f ++ String sep "" ++ join (String sep "") (f' :: fs))%string in IH.
      unfold_append. by rewrite IH.
Qed.

(** No field of a split holds the separator. *)
Lemma split_char_fields_free sep s f :
  f ∈ split_char sep s ->
  all_chars (fun c => negb (Ascii.eqb c sep)) f = true.
Proof.
  revert f. induction s as [|c s IH]; intros f; simpl.
  - intros ->%list_elem_of_singleton. done.
  - destruct (Ascii.eqb c sep) eqn:Hc.
    + intros [->|Hin]%elem_of_cons; [done | by apply IH].
    + destruct (split_char sep s) as [|f0 fs] eqn:E.
      * intros ->%list_elem_of_singleton. simpl. by rewrite Hc.
      * intros [->|Hin]%elem_of_cons.
        -- simpl. rewrite Hc. simpl. apply IH. by left.
        -- apply IH. by right.
Qed.

(** X9: the service is asked for a pull request only when the actor is
    pytorch-bot[bot], the ref is a tag, and the tag reads ciflow, a name and
    a numeric field separated by two slashes; in every other case the
    username given comes back. *)
Theorem pr_author_lookup_only_for_ciflow_tags
    (py_int : string -> attempt Z) gh repo username ref_type ref_name :
  get_potential_pr_author py_int gh repo username ref_type ref_name
  <> Returned username ->
  username = "pytorch-bot[bot]" /\ ref_type = "tag" /\
  exists name number,
    ref_name = ("ciflow/" ++ name ++ "/" ++ number)%string /\
    isnumeric number = true /\
    all_chars (fun c => negb (Ascii.eqb c "/")) name = true /\
    all_chars (fun c => negb (Ascii.eqb c "/")) number = true.
Proof.
  unfold get_potential_pr_author.
  destruct (String.eqb username "pytorch-bot[bot]") eqn:Hu; [|done].
  destruct (String.eqb ref_type "tag") eqn:Ht; [|done].
  apply String.eqb_eq in Hu, Ht. simpl andb. cbv iota.
  destruct (split_char "/" ref_name) as [|t0 [|t1 [|t2 [|t3 ts]]]] eqn:E; try done.
  destruct (String.eqb t0 "ciflow") eqn:H0; [|done].
  destruct (isnumeric t2) eqn:H2; [|done].
  apply String.eqb_eq in H0 as ->. intros _.
  split; [done|]. split; [done|]. exists t1, t2.
  split; [|split; [done|]].
  - rewrite <- (join_split_char "/" ref_name), E. reflexivity.
  - split; apply (split_char_fields_free "/" ref_name); rewrite E;
      rewrite !elem_of_cons; auto.
Qed.

(** X10: for the actor pytorch-bot[bot] and a tag ciflow/name/number with a
    numeric number, the answer is the login of the author of that pull
    request; when the repository cannot be fetched the error is an
    UnboundLocalError, and when the number cannot be converted or the pull
    request cannot be fetched it is an Exception whose message names the
    number and the repository and whose cause is the error met. *)
Theorem pr_author_of_ciflow_tag
    (py_int : string -> attempt Z) gh repo (name number : string) :
  all_chars (fun c => negb (Ascii.eqb c "/")) name = true ->
  all_chars (fun c => negb (Ascii.eqb c "/")) number = true ->
  isnumeric number = true ->
  let author :=
    get_potential_pr_author py_int gh repo "pytorch-bot[bot]" "tag"
      ("ciflow/" ++ name ++ "/" ++ number) in
  let failure repository e :=
    Raised (Exception ("issue with pull request " ++ number ++ " from repo "
                       ++ repository_str repository) e) in
  (forall e, get_repo gh repo = Raised e -> author = Raised UnboundLocalError) /\
  (forall repository e,
      get_repo gh repo = Returned repository ->
      py_int number = Raised e -> author = failure repository e) /\
  (forall repository n e,
      get_repo gh repo = Returned repository ->
      py_int number = Returned n ->
      get_pull repository n = Raised e -> author = failure repository e) /\
  (forall repository n pull,
      get_repo gh repo = Returned repository ->
      py_int number = Returned n ->
      get_pull repository n = Returned pull -> author = user_login pull).
Proof.
  intros Hname Hnumber Hnum author failure.
  assert (split_char "/" ("ciflow/" ++ name ++ "/" ++ number)
          = ["ciflow"; name; number]) as Hsplit.
  { change ("ciflow/" ++ name ++ "/" ++ number)%string
      with ("ciflow" ++ String "/" (name ++ String "/" number))%string.
    rewrite split_char_app by done. rewrite split_char_app by done.
    by rewrite split_char_free. }
  subst author failure. unfold get_potential_pr_author.
  simpl andb. cbv iota. rewrite Hsplit. simpl String.eqb. rewrite Hnum.
  simpl andb. cbv iota.
  repeat split.
  - by intros e ->.
  - intros repository e -> ->. done.
  - intros repository n e -> ->. simpl. by intros ->.
  - intros repository n pull -> ->. simpl. by intros ->.
Qed.

(** ** The decision of the script *)

Section decision.
Variable GITHUB_OUTPUT : string.
Variable py_int : string -> attempt Z.
Variable get_gh_client : string -> attempt Github.

Local Abbreviation decision := (main_decision py_int get_gh_client).

(** X11: on a branch that is an exception branch the script decides on the
    meta runners and the legacy image without consulting the service, and
    writes the two outputs, label-type first, with empty values: printed
    when GITHUB_OUTPUT is empty, appended to that file otherwise. *)
Theorem exception_branch_uses_meta_runners args :
  github_ref_type args = "branch" ->
  is_exception_branch (github_branch args) = true ->
  decision args = (WORKFLOW_LABEL_META, RUNNER_AMI_LEGACY) /\
  main GITHUB_OUTPUT py_int get_gh_client args
  = if String.eqb GITHUB_OUTPUT ""
    then [Print "::set-output name=label-type::";
          Print "::set-output name=runner-ami::"]
    else [Append GITHUB_OUTPUT ("label-type=" ++ String newline "");
          Append GITHUB_OUTPUT ("runner-ami=" ++ String newline "")].
Proof.
  intros Hty Hbranch.
  assert (decision args = (WORKFLOW_LABEL_META, RUNNER_AMI_LEGACY)) as Hd.
  { unfold main_decision. rewrite Hty, Hbranch. simpl.
    by rewrite andb_false_r. }
  split; [done|].
  unfold main, set_github_output. rewrite Hd.
  by destruct (String.eqb GITHUB_OUTPUT "").
Qed.

(** X12: the label type the script decides on is empty, "lf." or "lf.c.",
    and the image is empty or "amz2023"; the label is "lf.c." only for the
    repository pytorch/pytorch-canary, and for that repository it is never
    "lf.". *)
Theorem decision_range args :
  fst (decision args) ∈ [WORKFLOW_LABEL_META; WORKFLOW_LABEL_LF; WORKFLOW_LABEL_LF_CANARY] /\
  snd (decision args) ∈ [RUNNER_AMI_LEGACY; RUNNER_AMI_AMZ2023] /\
  (fst (decision args) = WORKFLOW_LABEL_LF_CANARY ->
   github_repo args = "pytorch/pytorch-canary") /\
  (github_repo args = "pytorch/pytorch-canary" ->
   fst (decision args) <> WORKFLOW_LABEL_LF).
Proof.
  unfold main_decision. cbv zeta.
  match goal with
  | |- context [String.eqb (fst ?x) WORKFLOW_LABEL_LF] => set (chosen := x)
  end.
  assert ((fst chosen = WORKFLOW_LABEL_META \/ fst chosen = WORKFLOW_LABEL_LF) /\
          (snd chosen = RUNNER_AMI_LEGACY \/ snd chosen = RUNNER_AMI_AMZ2023))
    as [Hlabel Hami].
  { subst chosen. destruct (_ && _); [by auto|].
    destruct (get_gh_client _) as [gh|e]; simpl; [|by auto].
    destruct (get_issue _ _ _) as [issue|e]; simpl; [|by auto].
    destruct (get_potential_pr_author _ _ _ _ _ _) as [username|e]; simpl; [|by auto].
    split.
    - unfold get_workflow_type.
      destruct (first_comment_body issue) as [body|e]; simpl; [|by auto].
      destruct (first_char _) as [c|e]; simpl; [|by auto].
      destruct (Ascii.eqb c "!"); [by auto|].
      destruct (Ascii.eqb c "*"); [by auto|].
      destruct (bool_decide _); auto.
    - unfold get_optin_feature.
      destruct (first_comment_body issue) as [body|e]; simpl; [|by auto].
      destruct (bool_decide _); auto. }
  cbn [fst snd].
  destruct (String.eqb (github_repo args) "pytorch/pytorch-canary") eqn:Hrepo.
  - apply String.eqb_eq in Hrepo.
    split; [|split; [|split]].
    + destruct Hlabel as [->| ->]; simpl; rewrite !elem_of_cons; auto.
    + destruct Hami as [->| ->]; rewrite !elem_of_cons; auto.
    + done.
    + intros _. by destruct Hlabel as [->| ->].
  - apply String.eqb_neq in Hrepo. simpl andb. cbv iota.
    split; [|split; [|split]].
    + destruct Hlabel as [->| ->]; rewrite !elem_of_cons; auto.
    + destruct Hami as [->| ->]; rewrite !elem_of_cons; auto.
    + by destruct Hlabel as [->| ->].
    + done.
Qed.

(** X13: when the connection to the service, the fetch of the issue or the
    search for the author of the pull request fails, the script decides on
    the meta runners and the legacy image. *)
Theorem service_failure_uses_meta_runners args :
  (exists e, get_gh_client (github_token args) = Raised e) \/
  (exists gh, get_gh_client (github_token args) = Returned gh /\
     ((exists e, get_issue gh (github_issue_repo args) (github_issue args) = Raised e) \/
      (exists e, get_potential_pr_author py_int gh (github_repo args)
                   (github_actor args) (github_ref_type args) (github_branch args)
                 = Raised e))) ->
  decision args = (WORKFLOW_LABEL_META, RUNNER_AMI_LEGACY).
Proof.
  intros Hfail. unfold main_decision.
  assert ((if String.eqb (github_repo args) "pytorch/pytorch-canary"
              && String.eqb WORKFLOW_LABEL_META WORKFLOW_LABEL_LF
           then WORKFLOW_LABEL_LF_CANARY else WORKFLOW_LABEL_META)
          = WORKFLOW_LABEL_META) as Hcanary by by rewrite andb_false_r.
  destruct (_ && is_exception_branch _); [by cbn [fst snd]; rewrite Hcanary|].
  destruct Hfail as [[e ->]|(gh & -> & [[e He]|[e He]])]; simpl.
  - by rewrite andb_false_r.
  - rewrite He. simpl. by rewrite andb_false_r.
  - destruct (get_issue _ _ _); simpl; [|by rewrite andb_false_r].
    rewrite He. simpl. by rewrite andb_false_r.
Qed.
End decision.

(** ** The statements at the sample service *)

Lemma unreadable_or_blank_comment_falls_back_witness :
  ((exists e, first_comment_body {| first_comment_body := Raised IndexError |}
              = Raised e) \/
   (exists body, first_comment_body {| first_comment_body := Raised IndexError |}
                 = Returned body /\
                 all_chars (fun c => char_in c comment_blanks) body = true)) /\
  get_workflow_type {| first_comment_body := Raised IndexError |} ["User1"]
  = WORKFLOW_LABEL_META /\
  get_optin_feature {| first_comment_body := Raised IndexError |} ["User1"]
    "amz2023" "" = "".
Proof.
  assert ((exists e, first_comment_body {| first_comment_body := Raised IndexError |}
                     = Raised e) \/
          (exists body, first_comment_body {| first_comment_body := Raised IndexError |}
                        = Returned body /\
                        all_chars (fun c => char_in c comment_blanks) body = true))
    as H.
  { left. exists IndexError. reflexivity. }
  split; [exact H|].
  exact (unreadable_or_blank_comment_falls_back
           {| first_comment_body := Raised IndexError |} ["User1"] "amz2023" "" H).
Defined.

Lemma first_character_decides_for_everyone_witness :
  all_chars (fun c => char_in c comment_blanks) (String " " (String newline ""))
  = true /\
  get_workflow_type
    {| first_comment_body :=
         Returned (String " " (String newline "") ++ "!" ++ "@User1")%string |}
    ["User1"] = WORKFLOW_LABEL_META /\
  get_workflow_type
    {| first_comment_body :=
         Returned (String " " (String newline "") ++ "*" ++ "")%string |}
    [] = WORKFLOW_LABEL_LF.
Proof.
  split; [reflexivity|]. split.
  - apply (proj1 (first_character_decides_for_everyone
                    (String " " (String newline "")) "@User1" ["User1"] eq_refl)).
  - apply (proj2 (first_character_decides_for_everyone
                    (String " " (String newline "")) "" [] eq_refl)).
Defined.

Lemma user_list_workflow_type_witness :
  forallb valid_entry sample_user_list = true /\
  forallb (all_chars name_char) ["User1"; "UserOptOutOfNewRunner"] = true /\
  let label :=
    get_workflow_type
      {| first_comment_body := Returned (render_user_list sample_user_list) |}
      ["User1"; "UserOptOutOfNewRunner"] in
  let listed :=
    exists e, e ∈ sample_user_list /\ opted_out e = false /\
              user e ∈ ["User1"; "UserOptOutOfNewRunner"] in
  (listed -> label = WORKFLOW_LABEL_LF) /\
  (~ listed -> label = WORKFLOW_LABEL_META) /\
  (label = WORKFLOW_LABEL_LF -> listed).
Proof.
  split; [reflexivity|]. split; [reflexivity|].
  apply (user_list_workflow_type sample_user_list
           ["User1"; "UserOptOutOfNewRunner"]); reflexivity.
Defined.

Lemma user_list_optin_feature_witness :
  forallb valid_entry sample_user_list = true /\
  let choice :=
    get_optin_feature
      {| first_comment_body := Returned (render_user_list sample_user_list) |}
      ["UserOptOutOfNewRunner"] "amz2023" "" in
  let opted :=
    exists e, e ∈ sample_user_list /\ user e ∈ ["UserOptOutOfNewRunner"] /\
              "amz2023" ∈ user e :: features e in
  (opted -> choice = "amz2023") /\
  (~ opted -> choice = "") /\
  ("amz2023" <> "" -> choice = "amz2023" -> opted).
Proof.
  split; [reflexivity|].
  apply (user_list_optin_feature sample_user_list
           ["UserOptOutOfNewRunner"] "amz2023" ""); reflexivity.
Defined.

Lemma pr_author_lookup_only_for_ciflow_tags_witness :
  get_potential_pr_author sample_int sample_github "pytorch/pytorch"
    "pytorch-bot[bot]" "tag" "ciflow/trunk/42"
  <> Returned "pytorch-bot[bot]" /\
  ("pytorch-bot[bot]" = "pytorch-bot[bot]" /\ "tag" = "tag" /\
   exists name number,
     "ciflow/trunk/42" = ("ciflow/" ++ name ++ "/" ++ number)%string /\
     isnumeric number = true /\
     all_chars (fun c => negb (Ascii.eqb c "/")) name = true /\
     all_chars (fun c => negb (Ascii.eqb c "/")) number = true).
Proof.
  assert (get_potential_pr_author sample_int sample_github "pytorch/pytorch"
            "pytorch-bot[bot]" "tag" "ciflow/trunk/42"
          <> Returned "pytorch-bot[bot]") as H.
  { vm_compute. discriminate. }
  split; [exact H|].
  exact (pr_author_lookup_only_for_ciflow_tags sample_int sample_github
           "pytorch/pytorch" "pytorch-bot[bot]" "tag" "ciflow/trunk/42" H).
Defined.

Lemma pr_author_of_ciflow_tag_witness :
  all_chars (fun c => negb (Ascii.eqb c "/")) "trunk" = true /\
  all_chars (fun c => negb (Ascii.eqb c "/")) "42" = true /\
  isnumeric "42" = true /\
  get_repo sample_github "pytorch/pytorch" = Returned sample_repository /\
  sample_int "42" = Returned 42 /\
  get_pull sample_repository 42 = Returned sample_pull /\
  get_potential_pr_author sample_int sample_github "pytorch/pytorch"
    "pytorch-bot[bot]" "tag" ("ciflow/" ++ "trunk" ++ "/" ++ "42")
  = user_login sample_pull.
Proof.
  split; [reflexivity|]. split; [reflexivity|]. split; [reflexivity|].
  split; [reflexivity|]. split; [reflexivity|]. split; [reflexivity|].
  apply (proj2 (proj2 (proj2
           (pr_author_of_ciflow_tag sample_int sample_github "pytorch/pytorch"
              "trunk" "42" eq_refl eq_refl eq_refl)))
           sample_repository 42 sample_pull); reflexivity.
Defined.

Lemma exception_branch_uses_meta_runners_witness :
  github_ref_type sample_release_args = "branch" /\
  is_exception_branch (github_branch sample_release_args) = true /\
  main_decision sample_int sample_client sample_release_args
  = (WORKFLOW_LABEL_META, RUNNER_AMI_LEGACY) /\
  main "" sample_int sample_client sample_release_args
  = if String.eqb "" ""
    then [Print "::set-output name=label-type::";
          Print "::set-output name=runner-ami::"]
    else [Append "" ("label-type=" ++ String newline "");
          Append "" ("runner-ami=" ++ String newline "")].
Proof.
  split; [reflexivity|]. split; [reflexivity|].
  apply (exception_branch_uses_meta_runners "" sample_int sample_client
           sample_release_args); reflexivity.
Defined.

Lemma service_failure_uses_meta_runners_witness :
  ((exists e, sample_client (github_token sample_args_without_token) = Raised e) \/
   (exists gh, sample_client (github_token sample_args_without_token) = Returned gh /\
      ((exists e, get_issue gh (github_issue_repo sample_args_without_token)
                    (github_issue sample_args_without_token) = Raised e) \/
       (exists e, get_potential_pr_author sample_int gh
                    (github_repo sample_args_without_token)
                    (github_actor sample_args_without_token)
                    (github_ref_type sample_args_without_token)
                    (github_branch sample_args_without_token) = Raised e)))) /\
  main_decision sample_int sample_client sample_args_without_token
  = (WORKFLOW_LABEL_META, RUNNER_AMI_LEGACY).
Proof.
  assert (exists e, sample_client (github_token sample_args_without_token) = Raised e)
    as H.
  { exists (ServiceError "401"). reflexivity. }
  split; [left; exact H|].
  apply (service_failure_uses_meta_runners sample_int sample_client
           sample_args_without_token). left. exact H.
Defined.
End RunnerFacts.
